(** * HTTPConnector: connection lifecycle and protocol-to-codec resolution

    A shallow embedding of [proxygen/lib/http/HTTPConnector.cpp].

    The connector is a record of its data members; every member function is
    a computation in a small state-and-trace monad whose trace records what
    the connector does to the outside world (queries on the transport, log
    lines, sessions built, callbacks invoked, sockets destroyed).

    Collaborators whose code lives outside this translation unit
    ([SPDYCodec::getVersion], the [http2] protocol strings,
    [HTTP1xCodec::supportsNextProtocol], [timePointInitialized]) are taken
    as parameters, bundled in the class [Collaborators].

    Three conventions.  A clock reading is an argument of the function that
    takes it.  The caller's callback is opaque: its invocation is an event
    of the trace, and whatever it does to the connector in turn is a later
    operation.  A socket destroyed while its connect is pending calls back
    into [connectErr] before the destruction returns; the functions that
    destroy a socket therefore take a bound [depth] on such nested calls,
    and one level is all they ever use. *)

From Stdlib Require Import ZArith String List Bool Lia.
Import ListNotations.
Open Scope string_scope.
Open Scope Z_scope.
Open Scope list_scope.

(** ** Plain data *)

(** A point of the steady clock, in milliseconds since the clock's epoch.
    A default-constructed [TimePoint] is the epoch itself. *)
Definition TimePoint := Z.
Definition TimePoint_default : TimePoint := 0.

(** Modelled from the spec: [millisecondsSince] (proxygen/lib/utils/Time.h)
    is the duration from a recorded time point to the current clock reading,
    "now - connectStartTime".  The clock reading is passed explicitly. *)
Definition millisecondsSince (now t : TimePoint) : Z := now - t.

Definition SocketAddress := string.
Definition EventBase := nat.
Definition WheelTimerInstance := nat.
Definition SSLContext := nat.
Definition SSL_SESSION := nat.

(** Identity of the object behind a [HTTPConnector::Callback*]. *)
Definition Callback := nat.

Record AsyncSocketException : Type := mkException {
  exType : nat;
  exWhat : string;
  exErrno : Z
}.

(** The error with which a socket fails a connect that is still pending
    when the socket is closed by its owner. *)
Definition socketClosedLocallyEx : AsyncSocketException :=
  mkException 7 "socket closed locally" 0.

Inductive SSLResumeEnum : Type :=
| HANDSHAKE | RESUME_SESSION_ID | RESUME_TICKET | NA.

Inductive TransportDirection : Type := DOWNSTREAM | UPSTREAM.

Record TransportInfo : Type := mkTransportInfo {
  secure : bool;
  acceptTime : TimePoint;
  appProtocol : option string;
  sslSetupTime : Z;
  sslCipher : option string;
  sslVersion : Z;
  sslResume : SSLResumeEnum
}.

(** [wangle::TransportInfo()] *)
Definition TransportInfo_default : TransportInfo :=
  mkTransportInfo false TimePoint_default None 0 None 0 NA.

Definition set_secure (b : bool) (t : TransportInfo) : TransportInfo :=
  mkTransportInfo b (acceptTime t) (appProtocol t) (sslSetupTime t)
                  (sslCipher t) (sslVersion t) (sslResume t).
Definition set_acceptTime (x : TimePoint) (t : TransportInfo) : TransportInfo :=
  mkTransportInfo (secure t) x (appProtocol t) (sslSetupTime t)
                  (sslCipher t) (sslVersion t) (sslResume t).
Definition set_appProtocol (x : option string) (t : TransportInfo) : TransportInfo :=
  mkTransportInfo (secure t) (acceptTime t) x (sslSetupTime t)
                  (sslCipher t) (sslVersion t) (sslResume t).
Definition set_sslSetupTime (x : Z) (t : TransportInfo) : TransportInfo :=
  mkTransportInfo (secure t) (acceptTime t) (appProtocol t) x
                  (sslCipher t) (sslVersion t) (sslResume t).
Definition set_sslCipher (x : option string) (t : TransportInfo) : TransportInfo :=
  mkTransportInfo (secure t) (acceptTime t) (appProtocol t) (sslSetupTime t)
                  x (sslVersion t) (sslResume t).
Definition set_sslVersion (x : Z) (t : TransportInfo) : TransportInfo :=
  mkTransportInfo (secure t) (acceptTime t) (appProtocol t) (sslSetupTime t)
                  (sslCipher t) x (sslResume t).
Definition set_sslResume (x : SSLResumeEnum) (t : TransportInfo) : TransportInfo :=
  mkTransportInfo (secure t) (acceptTime t) (appProtocol t) (sslSetupTime t)
                  (sslCipher t) (sslVersion t) x.

(** ** The transport, as far as the connector observes it *)

(** The arguments of [AsyncSocket::connect]. *)
Record ConnectRequest : Type := mkRequest {
  connectAddr : SocketAddress;
  timeoutMs : Z;
  socketOptions : list (Z * Z);
  bindAddr : SocketAddress
}.

(** What a completed connect (and TLS handshake) makes readable on the
    socket. *)
Record Handshake : Type := mkHandshake {
  localAddress : SocketAddress;
  peerAddress : SocketAddress;
  applicationProtocol : string;
  negotiatedCipherName : option string;
  negotiatedSSLVersion : Z;
  resumeState : SSLResumeEnum
}.

Definition Handshake_none : Handshake :=
  mkHandshake EmptyString EmptyString EmptyString None 0 NA.

(** An [AsyncSocket]; [isSSL] tells an [AsyncSSLSocket] from a plain one.
    [connectCallback_] holds while the connector is registered as the
    callback of a connect that has not completed: the socket clears it
    before it reports the outcome, and a socket destroyed while it is still
    set fails the pending connect through [connectErr]. *)
Record AsyncSocket : Type := mkSocket {
  isSSL : bool;
  sockEventBase : EventBase;
  sockContext : option SSLContext;
  sslSession : option SSL_SESSION;
  serverName : string;
  cacheAddrOnFailure : bool;
  request : option ConnectRequest;
  connectCallback_ : bool;
  negotiated : Handshake
}.

Definition new_AsyncSocket (eb : EventBase) : AsyncSocket :=
  mkSocket false eb None None EmptyString false None false Handshake_none.

Definition new_AsyncSSLSocket (ctx : SSLContext) (eb : EventBase) : AsyncSocket :=
  mkSocket true eb (Some ctx) None EmptyString false None false Handshake_none.

Definition setSSLSession (s : SSL_SESSION) (k : AsyncSocket) : AsyncSocket :=
  mkSocket (isSSL k) (sockEventBase k) (sockContext k) (Some s) (serverName k)
           (cacheAddrOnFailure k) (request k) (connectCallback_ k) (negotiated k).
Definition setServerName (n : string) (k : AsyncSocket) : AsyncSocket :=
  mkSocket (isSSL k) (sockEventBase k) (sockContext k) (sslSession k) n
           (cacheAddrOnFailure k) (request k) (connectCallback_ k) (negotiated k).
Definition forceCacheAddrOnFailure (b : bool) (k : AsyncSocket) : AsyncSocket :=
  mkSocket (isSSL k) (sockEventBase k) (sockContext k) (sslSession k) (serverName k)
           b (request k) (connectCallback_ k) (negotiated k).

(** [sock->connect(this, addr, timeout, options, bindAddr)]: the request is
    stored and the connector becomes the pending connect callback. *)
Definition AsyncSocket_connect (r : ConnectRequest) (k : AsyncSocket) : AsyncSocket :=
  mkSocket (isSSL k) (sockEventBase k) (sockContext k) (sslSession k) (serverName k)
           (cacheAddrOnFailure k) (Some r) true (negotiated k).

(** The socket is about to report the outcome of the connect: it releases
    the callback and, on success, exposes what was negotiated. *)
Definition AsyncSocket_complete (h : Handshake) (k : AsyncSocket) : AsyncSocket :=
  mkSocket (isSSL k) (sockEventBase k) (sockContext k) (sslSession k) (serverName k)
           (cacheAddrOnFailure k) (request k) false h.
Definition AsyncSocket_fail (k : AsyncSocket) : AsyncSocket :=
  mkSocket (isSSL k) (sockEventBase k) (sockContext k) (sslSession k) (serverName k)
           (cacheAddrOnFailure k) (request k) false (negotiated k).

(** ** The connector's data members *)

Record HTTPConnector : Type := mkConnector {
  cb_ : option Callback;
  timeout_ : WheelTimerInstance;
  socket_ : option AsyncSocket;
  transportInfo_ : TransportInfo;
  connectStart_ : TimePoint;
  plaintextProtocol_ : string;
  forceHTTP1xCodecTo1_1_ : bool
}.

Definition set_cb_ (x : option Callback) (c : HTTPConnector) : HTTPConnector :=
  mkConnector x (timeout_ c) (socket_ c) (transportInfo_ c) (connectStart_ c)
              (plaintextProtocol_ c) (forceHTTP1xCodecTo1_1_ c).
Definition set_socket_ (x : option AsyncSocket) (c : HTTPConnector) : HTTPConnector :=
  mkConnector (cb_ c) (timeout_ c) x (transportInfo_ c) (connectStart_ c)
              (plaintextProtocol_ c) (forceHTTP1xCodecTo1_1_ c).
Definition set_transportInfo_ (x : TransportInfo) (c : HTTPConnector) : HTTPConnector :=
  mkConnector (cb_ c) (timeout_ c) (socket_ c) x (connectStart_ c)
              (plaintextProtocol_ c) (forceHTTP1xCodecTo1_1_ c).
Definition set_connectStart_ (x : TimePoint) (c : HTTPConnector) : HTTPConnector :=
  mkConnector (cb_ c) (timeout_ c) (socket_ c) (transportInfo_ c) x
              (plaintextProtocol_ c) (forceHTTP1xCodecTo1_1_ c).
Definition set_plaintextProtocol_ (x : string) (c : HTTPConnector) : HTTPConnector :=
  mkConnector (cb_ c) (timeout_ c) (socket_ c) (transportInfo_ c) (connectStart_ c)
              x (forceHTTP1xCodecTo1_1_ c).
Definition set_forceHTTP1xCodecTo1_1_ (x : bool) (c : HTTPConnector) : HTTPConnector :=
  mkConnector (cb_ c) (timeout_ c) (socket_ c) (transportInfo_ c) (connectStart_ c)
              (plaintextProtocol_ c) x.

(** Modelled from the spec: [isBusy] (declared in HTTPConnector.h) is
    "true iff a transport handle is currently owned". *)
Definition isBusy (c : HTTPConnector) : bool :=
  match socket_ c with Some _ => true | None => false end.

(** ** Collaborators defined outside this translation unit *)

Class Collaborators : Type := mkCollaborators {
  (** the SPDY version tags *)
  SPDYVersion : Type;
  (** [SPDYCodec::getVersion]: the version a protocol token names, if any *)
  SPDYCodec_getVersion : string -> option SPDYVersion;
  (** [proxygen::http2::kProtocol...String] *)
  kProtocolString : string;
  kProtocolCleartextString : string;
  kProtocolDraftString : string;
  kProtocolExperimentalString : string;
  (** [HTTP1xCodec::supportsNextProtocol] *)
  HTTP1xCodec_supportsNextProtocol : string -> bool;
  (** [timePointInitialized] (proxygen/lib/utils/Time.h) *)
  timePointInitialized : TimePoint -> bool
}.

Section Connector.

Context {env : Collaborators}.

(** ** Codecs, sessions and the observable trace *)

(** The closed set of codecs [makeCodec] can build, each with the arguments
    of its constructor. *)
Inductive HTTPCodec : Type :=
| SPDYCodec (dir : TransportDirection) (version : SPDYVersion)
| HTTP2Codec (dir : TransportDirection)
| HTTP1xCodec (dir : TransportDirection) (forceHTTP1xCodecTo1_1 : bool).

(** The arguments [HTTPUpstreamSession] is constructed from. *)
Record HTTPUpstreamSession : Type := mkSession {
  sessTimeout : WheelTimerInstance;
  sessSock : AsyncSocket;
  sessLocalAddress : SocketAddress;
  sessPeerAddress : SocketAddress;
  sessCodec : HTTPCodec;
  sessTransportInfo : TransportInfo
}.

Inductive SocketQuery : Type :=
| GetLocalAddress | GetPeerAddress | GetUnderlyingTransport
| GetApplicationProtocol | GetNegotiatedCipherName | GetSSLVersion
| GetResumeState.

Inductive Event : Type :=
| Queried (q : SocketQuery)
| ConnectStarted (sock : AsyncSocket)
| SocketDestroyed (sock : AsyncSocket)
| LogError (msg : string)
| SessionCreated (session : HTTPUpstreamSession)
| CallbackConnectSuccess (cb : Callback) (session : HTTPUpstreamSession)
| CallbackConnectError (cb : Callback) (ex : AsyncSocketException).

Definition Trace := list Event.

Definition isCallbackEvent (e : Event) : bool :=
  match e with
  | CallbackConnectSuccess _ _ | CallbackConnectError _ _ => true
  | _ => false
  end.

Definition isSessionEvent (e : Event) : bool :=
  match e with
  | SessionCreated _ | CallbackConnectSuccess _ _ => true
  | _ => false
  end.

(** ** Protocol to codec resolution *)

Definition quote : string := String (Ascii.ascii_of_nat 34) EmptyString.

Definition unimplementedMessage (chosenProto : string) : string :=
  ("Chosen upstream protocol " ++ quote ++ chosenProto ++ quote ++
   " is unimplemented. " ++ "Attempting to use HTTP/1.1")%string.

Definition empty (s : string) : bool :=
  match s with EmptyString => true | String _ _ => false end.

Definition isHTTP2Identifier (chosenProto : string) : bool :=
  String.eqb chosenProto kProtocolString ||
  String.eqb chosenProto kProtocolCleartextString ||
  String.eqb chosenProto kProtocolDraftString ||
  String.eqb chosenProto kProtocolExperimentalString.

(** [HTTPConnector::makeCodec]: the codec, and the lines it logs. *)
Definition makeCodec (chosenProto : string) (forceHTTP1xCodecTo1_1 : bool)
  : HTTPCodec * Trace :=
  let spdyVersion := SPDYCodec_getVersion chosenProto in
  match spdyVersion with
  | Some v => (SPDYCodec UPSTREAM v, [])
  | None =>
    if String.eqb chosenProto kProtocolString ||
       String.eqb chosenProto kProtocolCleartextString ||
       String.eqb chosenProto kProtocolDraftString ||
       String.eqb chosenProto kProtocolExperimentalString
    then (HTTP2Codec UPSTREAM, [])
    else
      (HTTP1xCodec UPSTREAM forceHTTP1xCodecTo1_1,
       if negb (empty chosenProto) &&
          negb (HTTP1xCodec_supportsNextProtocol chosenProto)
       then [LogError (unimplementedMessage chosenProto)]
       else [])
  end.

(** ** The monad of member functions *)

Inductive Fault : Type :=
| CheckFailed      (** a CHECK or DCHECK does not hold *)
| NullDereference  (** a null [socket_] is dereferenced *)
| NoPendingConnect (** the transport reports an outcome nobody waits for *)
| DepthExhausted.  (** the bound on nested calls is too small *)

Inductive Outcome (A : Type) : Type :=
| Done (a : A) (c : HTTPConnector) (tr : Trace)
| Failed (f : Fault).
Arguments Done {A} a c tr.
Arguments Failed {A} f.

Definition M (A : Type) : Type := HTTPConnector -> Outcome A.

Definition ret {A} (a : A) : M A := fun c => Done a c [].

Definition bind {A B} (m : M A) (k : A -> M B) : M B :=
  fun c =>
    match m c with
    | Done a c1 t1 =>
      match k a c1 with
      | Done b c2 t2 => Done b c2 (t1 ++ t2)
      | Failed f => Failed f
      end
    | Failed f => Failed f
    end.

Notation "x <- m ;; k" := (bind m (fun x => k))
  (at level 61, m at next level, right associativity).
Notation "m ;; k" := (bind m (fun _ => k))
  (at level 61, right associativity).

Definition gets {A} (f : HTTPConnector -> A) : M A := fun c => Done (f c) c [].
Definition modify (f : HTTPConnector -> HTTPConnector) : M unit :=
  fun c => Done tt (f c) [].
Definition emit (e : Event) : M unit := fun c => Done tt c [e].
Definition fail {A} (f : Fault) : M A := fun _ => Failed f.
Definition logged {A} (r : A * Trace) : M A := fun c => Done (fst r) c (snd r).
Definition DCHECK (b : bool) : M unit := if b then ret tt else fail CheckFailed.

(** [socket_->...]: the object behind the owned pointer. *)
Definition deref_socket_ : M AsyncSocket :=
  s <- gets socket_ ;;
  match s with Some sock => ret sock | None => fail NullDereference end.

(** ** Member functions *)

(** The body of [connectErr], given what [socket_.reset()] does. *)
Definition connectErr_body (socket_reset : M unit) (ex : AsyncSocketException)
  : M unit :=
  socket_reset ;;
  cb <- gets cb_ ;;
  match cb with
  | Some cb => emit (CallbackConnectError cb ex)
  | None => ret tt
  end.

(** [socket_.reset(p)]: the pointer is replaced first, then the socket it
    held is destroyed; a socket destroyed with its connect still pending
    calls [connectErr] on the connector before the destruction returns.
    [depth] bounds the nesting of such calls. *)
Fixpoint socket_reset (depth : nat) (p : option AsyncSocket) : M unit :=
  old <- gets socket_ ;;
  modify (set_socket_ p) ;;
  match old with
  | None => ret tt
  | Some sock =>
    emit (SocketDestroyed sock) ;;
    if connectCallback_ sock then
      match depth with
      | O => fail DepthExhausted
      | S d => connectErr_body (socket_reset d None) socketClosedLocallyEx
      end
    else ret tt
  end.

(** [HTTPConnector::connectErr] *)
Definition connectErr (depth : nat) (ex : AsyncSocketException) : M unit :=
  connectErr_body (socket_reset depth None) ex.

(** [HTTPConnector::HTTPConnector]; [CHECK_NOTNULL] aborts on a null
    callback. *)
Definition HTTPConnector_new (callback : option Callback)
    (timeout : WheelTimerInstance) : option HTTPConnector :=
  match callback with
  | Some cb =>
    Some (mkConnector (Some cb) timeout None TransportInfo_default
                      TimePoint_default EmptyString false)
  | None => None
  end.

(** [HTTPConnector::reset] *)
Definition reset (depth : nat) : M unit :=
  s <- gets socket_ ;;
  match s with
  | Some _ =>
    cb <- gets cb_ ;;
    modify (set_cb_ None) ;;
    socket_reset depth None ;;
    modify (set_cb_ cb)
  | None => ret tt
  end.

(** [HTTPConnector::~HTTPConnector] *)
Definition destructor (depth : nat) : M unit := reset depth.

(** [HTTPConnector::setPlaintextProtocol] *)
Definition setPlaintextProtocol (plaintextProto : string) : M unit :=
  modify (set_plaintextProtocol_ plaintextProto).

(** [HTTPConnector::setHTTPVersionOverride] *)
Definition setHTTPVersionOverride (enabled : bool) : M unit :=
  modify (set_forceHTTP1xCodecTo1_1_ enabled).

(** [sock->connect(this, ...)] on the socket [socket_] owns. *)
Definition start_connect (r : ConnectRequest) : M unit :=
  sock <- deref_socket_ ;;
  let sock' := AsyncSocket_connect r sock in
  modify (set_socket_ (Some sock')) ;;
  emit (ConnectStarted sock').

(** [HTTPConnector::connect]; [now] is what [getCurrentTime()] reads. *)
Definition connect (depth : nat) (now : TimePoint) (eventBase : EventBase)
    (r : ConnectRequest) : M unit :=
  busy <- gets isBusy ;;
  DCHECK (negb busy) ;;
  modify (set_transportInfo_ TransportInfo_default) ;;
  modify (fun c => set_transportInfo_ (set_secure false (transportInfo_ c)) c) ;;
  let sock := new_AsyncSocket eventBase in
  socket_reset depth (Some sock) ;;
  modify (set_connectStart_ now) ;;
  start_connect r.

(** [HTTPConnector::connectSSL] *)
Definition connectSSL (depth : nat) (now : TimePoint) (eventBase : EventBase)
    (context : SSLContext) (session : option SSL_SESSION)
    (serverName : string) (r : ConnectRequest) : M unit :=
  busy <- gets isBusy ;;
  DCHECK (negb busy) ;;
  modify (set_transportInfo_ TransportInfo_default) ;;
  modify (fun c => set_transportInfo_ (set_secure true (transportInfo_ c)) c) ;;
  let sslSock := new_AsyncSSLSocket context eventBase in
  let sslSock := match session with
                 | Some s => setSSLSession s sslSock
                 | None => sslSock
                 end in
  let sslSock := setServerName serverName sslSock in
  let sslSock := forceCacheAddrOnFailure true sslSock in
  socket_reset depth (Some sslSock) ;;
  modify (set_connectStart_ now) ;;
  start_connect r.

(** [HTTPConnector::timeElapsed]; [now] is the clock reading of
    [millisecondsSince]. *)
Definition timeElapsed (now : TimePoint) (c : HTTPConnector) : Z :=
  if timePointInitialized (connectStart_ c)
  then millisecondsSince now (connectStart_ c)
  else 0.

Definition update_transportInfo_ (f : TransportInfo -> TransportInfo) : M unit :=
  modify (fun c => set_transportInfo_ (f (transportInfo_ c)) c).

(** The TLS branch of [connectSuccess] that fills [transportInfo_]. *)
Definition record_ssl_info (sock : AsyncSocket) (sslNow : TimePoint) : M unit :=
  emit (Queried GetApplicationProtocol) ;;
  update_transportInfo_
    (set_appProtocol (Some (applicationProtocol (negotiated sock)))) ;;
  start <- gets connectStart_ ;;
  update_transportInfo_ (set_sslSetupTime (millisecondsSince sslNow start)) ;;
  emit (Queried GetNegotiatedCipherName) ;;
  match negotiatedCipherName (negotiated sock) with
  | Some n =>
    emit (Queried GetNegotiatedCipherName) ;;
    update_transportInfo_ (set_sslCipher (Some n))
  | None => update_transportInfo_ (set_sslCipher None)
  end ;;
  emit (Queried GetSSLVersion) ;;
  update_transportInfo_ (set_sslVersion (negotiatedSSLVersion (negotiated sock))) ;;
  emit (Queried GetResumeState) ;;
  update_transportInfo_ (set_sslResume (resumeState (negotiated sock))).

(** [HTTPConnector::connectSuccess]; [acceptNow] and [sslNow] are the two
    clock readings it takes. *)
Definition connectSuccess (acceptNow sslNow : TimePoint) : M unit :=
  cb <- gets cb_ ;;
  match cb with
  | None => ret tt
  | Some cb =>
    sock <- deref_socket_ ;;
    emit (Queried GetLocalAddress) ;;
    let localAddr := localAddress (negotiated sock) in
    emit (Queried GetPeerAddress) ;;
    let peerAddr := peerAddress (negotiated sock) in
    update_transportInfo_ (set_acceptTime acceptNow) ;;
    isSecure <- gets (fun c => secure (transportInfo_ c)) ;;
    force <- gets forceHTTP1xCodecTo1_1_ ;;
    codec <-
      (if isSecure then
         emit (Queried GetUnderlyingTransport) ;;
         (if isSSL sock then record_ssl_info sock sslNow else ret tt) ;;
         emit (Queried GetApplicationProtocol) ;;
         logged (makeCodec (applicationProtocol (negotiated sock)) force)
       else
         proto <- gets plaintextProtocol_ ;;
         logged (makeCodec proto force)) ;;
    timeout <- gets timeout_ ;;
    tinfo <- gets transportInfo_ ;;
    modify (set_socket_ None) ;;
    let session := mkSession timeout sock localAddr peerAddr codec tinfo in
    emit (SessionCreated session) ;;
    emit (CallbackConnectSuccess cb session)
  end.

(** ** The transport's side of the callback contract *)

(** The socket reports that the connect succeeded: it releases the
    callback, exposes what was negotiated and calls [connectSuccess]. *)
Definition transport_connectSuccess (h : Handshake)
    (acceptNow sslNow : TimePoint) : M unit :=
  s <- gets socket_ ;;
  match s with
  | Some sock =>
    if connectCallback_ sock then
      modify (set_socket_ (Some (AsyncSocket_complete h sock))) ;;
      connectSuccess acceptNow sslNow
    else fail NoPendingConnect
  | None => fail NoPendingConnect
  end.

(** The socket reports that the connect failed: it releases the callback
    and calls [connectErr]. *)
Definition transport_connectErr (depth : nat) (ex : AsyncSocketException)
  : M unit :=
  s <- gets socket_ ;;
  match s with
  | Some sock =>
    if connectCallback_ sock then
      modify (set_socket_ (Some (AsyncSocket_fail sock))) ;;
      connectErr depth ex
    else fail NoPendingConnect
  | None => fail NoPendingConnect
  end.

(** At every call of [connectErr] the socket, if the connector still owns
    one, has released its connect callback: the transport releases it
    before it reports, and [socket_.reset()] clears [socket_] before the
    destruction reports. *)
Definition callback_released (c : HTTPConnector) : Prop :=
  match socket_ c with
  | Some sock => connectCallback_ sock = false
  | None => True
  end.

(** ** Sequences of operations on one connector *)

Inductive Op : Type :=
| OpConnect (now : TimePoint) (eventBase : EventBase) (r : ConnectRequest)
| OpConnectSSL (now : TimePoint) (eventBase : EventBase) (context : SSLContext)
             (session : option SSL_SESSION) (serverName : string)
             (r : ConnectRequest)
| OpReset
| OpSetPlaintextProtocol (plaintextProto : string)
| OpSetHTTPVersionOverride (enabled : bool)
| TransportSuccess (h : Handshake) (acceptNow sslNow : TimePoint)
| TransportError (ex : AsyncSocketException).

Definition exec (depth : nat) (o : Op) : M unit :=
  match o with
  | OpConnect now eb r => connect depth now eb r
  | OpConnectSSL now eb ctx sess name r => connectSSL depth now eb ctx sess name r
  | OpReset => reset depth
  | OpSetPlaintextProtocol p => setPlaintextProtocol p
  | OpSetHTTPVersionOverride b => setHTTPVersionOverride b
  | TransportSuccess h t1 t2 => transport_connectSuccess h t1 t2
  | TransportError ex => transport_connectErr depth ex
  end.

Fixpoint run (depth : nat) (ops : list Op) : M unit :=
  match ops with
  | [] => ret tt
  | o :: rest => exec depth o ;; run depth rest
  end.

(** The clock reading an operation records as the connect start. *)
Definition connectTime (o : Op) : option TimePoint :=
  match o with
  | OpConnect now _ _ => Some now
  | OpConnectSSL now _ _ _ _ _ => Some now
  | _ => None
  end.

Definition startsAttempt (o : Op) : bool :=
  match connectTime o with Some _ => true | None => false end.

Definition isSetter (o : Op) : bool :=
  match o with
  | OpSetPlaintextProtocol _ | OpSetHTTPVersionOverride _ => true
  | _ => false
  end.

(** The protocol name [connectSuccess] hands to [makeCodec]. *)
Definition chosenProtocol (c : HTTPConnector) (sock : AsyncSocket) : string :=
  if secure (transportInfo_ c)
  then applicationProtocol (negotiated sock)
  else plaintextProtocol_ c.

(** One of the four HTTP/2 identifiers. *)
Definition HTTP2Identifier (p : string) : Prop :=
  p = kProtocolString \/ p = kProtocolCleartextString \/
  p = kProtocolDraftString \/ p = kProtocolExperimentalString.

(** What [connectSuccess] leaves behind when a callback is attached: the
    queries it makes on the socket, the metadata it assembles and the
    session it builds. *)
Definition sslQueries (sock : AsyncSocket) : Trace :=
  [Queried GetApplicationProtocol; Queried GetNegotiatedCipherName] ++
  match negotiatedCipherName (negotiated sock) with
  | Some _ => [Queried GetNegotiatedCipherName]
  | None => []
  end ++
  [Queried GetSSLVersion; Queried GetResumeState].

Definition successQueries (c : HTTPConnector) (sock : AsyncSocket) : Trace :=
  [Queried GetLocalAddress; Queried GetPeerAddress] ++
  if secure (transportInfo_ c)
  then [Queried GetUnderlyingTransport] ++
       (if isSSL sock then sslQueries sock else []) ++
       [Queried GetApplicationProtocol]
  else [].

Definition successTransportInfo (acceptNow sslNow : TimePoint)
    (c : HTTPConnector) (sock : AsyncSocket) : TransportInfo :=
  let ti := set_acceptTime acceptNow (transportInfo_ c) in
  if secure (transportInfo_ c) && isSSL sock then
    set_sslResume (resumeState (negotiated sock))
      (set_sslVersion (negotiatedSSLVersion (negotiated sock))
        (set_sslCipher (negotiatedCipherName (negotiated sock))
          (set_sslSetupTime (millisecondsSince sslNow (connectStart_ c))
            (set_appProtocol (Some (applicationProtocol (negotiated sock)))
              ti))))
  else ti.

Definition successSession (acceptNow sslNow : TimePoint)
    (c : HTTPConnector) (sock : AsyncSocket) : HTTPUpstreamSession :=
  mkSession (timeout_ c) sock
    (localAddress (negotiated sock)) (peerAddress (negotiated sock))
    (fst (makeCodec (chosenProtocol c sock) (forceHTTP1xCodecTo1_1_ c)))
    (successTransportInfo acceptNow sslNow c sock).

(** The trace of [socket_.reset()] proper, and of the error notification. *)
Definition destroyed (c : HTTPConnector) : Trace :=
  match socket_ c with Some sock => [SocketDestroyed sock] | None => [] end.

Definition notified (c : HTTPConnector) (ex : AsyncSocketException) : Trace :=
  match cb_ c with Some cb => [CallbackConnectError cb ex] | None => [] end.

(** The socket and the connector an idle connector has after [connect] and
    [connectSSL]. *)
Definition plainSocket (eb : EventBase) (r : ConnectRequest) : AsyncSocket :=
  AsyncSocket_connect r (new_AsyncSocket eb).

Definition secureSocket (eb : EventBase) (ctx : SSLContext)
    (session : option SSL_SESSION) (name : string) (r : ConnectRequest)
  : AsyncSocket :=
  AsyncSocket_connect r
    (forceCacheAddrOnFailure true
       (setServerName name
          (match session with
           | Some s => setSSLSession s (new_AsyncSSLSocket ctx eb)
           | None => new_AsyncSSLSocket ctx eb
           end))).

Definition started (isSecure : bool) (now : TimePoint) (sock : AsyncSocket)
    (c : HTTPConnector) : HTTPConnector :=
  mkConnector (cb_ c) (timeout_ c) (Some sock)
              (set_secure isSecure TransportInfo_default) now
              (plaintextProtocol_ c) (forceHTTP1xCodecTo1_1_ c).

(** What holds of the connector whenever control is outside its member
    functions: the callback is attached, and an owned socket has its connect
    still pending. *)
Definition between_calls (c : HTTPConnector) : Prop :=
  cb_ c <> None /\
  forall sock, socket_ c = Some sock -> connectCallback_ sock = true.

(** Whether a socket is owned after an operation, from whether one was
    owned before it. *)
Definition busyAfter (o : Op) (busy : bool) : bool :=
  match o with
  | OpConnect _ _ _ | OpConnectSSL _ _ _ _ _ _ => true
  | OpReset | TransportSuccess _ _ _ | TransportError _ => false
  | OpSetPlaintextProtocol _ | OpSetHTTPVersionOverride _ => busy
  end.

(** The recorded connect start after an operation. *)
Definition startAfter (o : Op) (start : TimePoint) : TimePoint :=
  match connectTime o with Some now => now | None => start end.

Definition noAttempt (ops : list Op) : Prop :=
  forallb (fun o => negb (startsAttempt o)) ops = true.

Definition noCallback (tr : Trace) : Prop :=
  forallb (fun e => negb (isCallbackEvent e)) tr = true.

Definition noSession (tr : Trace) : Prop :=
  forallb (fun e => negb (isSessionEvent e)) tr = true.

(** ** Vocabulary for whole runs *)

Definition codecDirection (codec : HTTPCodec) : TransportDirection :=
  match codec with
  | SPDYCodec dir _ | HTTP2Codec dir | HTTP1xCodec dir _ => dir
  end.

(** Events that reach neither the caller nor a socket's lifetime. *)
Definition silent (e : Event) : bool :=
  match e with Queried _ | LogError _ => true | _ => false end.

(** What the transport reports, and what the caller hears. *)
Inductive Report : Type :=
| ReportedSuccess
| ReportedError (ex : AsyncSocketException).

Definition reportOf (o : Op) : list Report :=
  match o with
  | TransportSuccess _ _ _ => [ReportedSuccess]
  | TransportError ex => [ReportedError ex]
  | _ => []
  end.

Definition callbackOf (e : Event) : list (Callback * Report) :=
  match e with
  | CallbackConnectSuccess cb _ => [(cb, ReportedSuccess)]
  | CallbackConnectError cb ex => [(cb, ReportedError ex)]
  | _ => []
  end.

Definition createdSession (e : Event) : list HTTPUpstreamSession :=
  match e with SessionCreated s => [s] | _ => [] end.

Definition deliveredSession (e : Event) : list HTTPUpstreamSession :=
  match e with CallbackConnectSuccess _ s => [s] | _ => [] end.

Definition isConnectStarted (e : Event) : bool :=
  match e with ConnectStarted _ => true | _ => false end.

Definition isSocketDestroyed (e : Event) : bool :=
  match e with SocketDestroyed _ => true | _ => false end.

Definition isSessionCreated (e : Event) : bool :=
  match e with SessionCreated _ => true | _ => false end.

Definition countEvents (f : Event -> bool) (tr : Trace) : nat :=
  length (filter f tr).

Definition ownedSockets (c : HTTPConnector) : nat :=
  if isBusy c then 1%nat else 0%nat.

(** The plaintext hint and the version override after an operation. *)
Definition hintAfter (p : string) (o : Op) : string :=
  match o with OpSetPlaintextProtocol q => q | _ => p end.

Definition overrideAfter (b : bool) (o : Op) : bool :=
  match o with OpSetHTTPVersionOverride e => e | _ => b end.

Definition hintOf (ops : list Op) : string :=
  fold_left hintAfter ops EmptyString.

Definition overrideOf (ops : list Op) : bool :=
  fold_left overrideAfter ops false.

Definition setsHint (o : Op) : bool :=
  match o with OpSetPlaintextProtocol _ => true | _ => false end.

(** When [makeCodec] logs. *)
Definition unimplemented (p : string) : Prop :=
  SPDYCodec_getVersion p = None /\
  ~ HTTP2Identifier p /\
  p <> EmptyString /\
  HTTP1xCodec_supportsNextProtocol p = false.

End Connector.

Arguments Done {env A} a c tr.
Arguments Failed {env A} f.

(** ** A concrete choice of collaborators, to run the model on examples *)

Inductive SampleSPDYVersion : Type := SPDY3 | SPDY3_1.

Definition sample_getVersion (p : string) : option SampleSPDYVersion :=
  if String.eqb p "spdy/3" then Some SPDY3
  else if String.eqb p "spdy/3.1" then Some SPDY3_1
  else None.

Definition sampleEnv : Collaborators :=
  mkCollaborators SampleSPDYVersion sample_getVersion
    "h2" "h2c" "h2-14" "h2-fb"
    (fun p => String.eqb p "http/1.1")
    (fun t => 0 <? t).

Definition sampleRequest : ConnectRequest :=
  mkRequest "192.0.2.1:443" 1000 [] "0.0.0.0:0".

Definition sampleHandshake (proto : string) : Handshake :=
  mkHandshake "192.0.2.7:50000" "192.0.2.1:443" proto
              (Some "ECDHE-RSA-AES128-GCM-SHA256") 771 HANDSHAKE.

Definition sampleError : AsyncSocketException :=
  mkException 2 "connect failed" 111.

(** A freshly constructed connector with callback object 1. *)
Definition sampleIdle : HTTPConnector :=
  mkConnector (Some 1%nat) 0%nat None TransportInfo_default TimePoint_default
              EmptyString false.

(** The same connector with a plaintext connect in flight since time 5. *)
Definition sampleConnecting : HTTPConnector :=
  mkConnector (Some 1%nat) 0%nat
    (Some (AsyncSocket_connect sampleRequest (new_AsyncSocket 0%nat)))
    TransportInfo_default 5 EmptyString false.

(** The socket of [sampleConnecting], and that connector once the socket
    has released its callback to report a failure. *)
Definition sampleSocket : AsyncSocket := plainSocket 0%nat sampleRequest.

Definition sampleReporting : HTTPConnector :=
  set_socket_ (Some (AsyncSocket_fail sampleSocket)) sampleConnecting.

(** A TLS connect that has just completed, with [proto] negotiated. *)
Definition sampleSecureSocket (proto : string) : AsyncSocket :=
  AsyncSocket_complete (sampleHandshake proto)
    (secureSocket 0%nat 3%nat None "example.org" sampleRequest).

Definition sampleSecured (proto : string) : HTTPConnector :=
  mkConnector (Some 1%nat) 0%nat (Some (sampleSecureSocket proto))
              (set_secure true TransportInfo_default) 5 EmptyString false.

(** A run with a cancelled attempt, a TLS attempt that succeeds and a
    plaintext attempt that fails. *)
Definition sampleRun : list Op :=
  [OpConnect 5 0%nat sampleRequest;
   OpReset;
   OpConnectSSL 6 0%nat 3%nat (Some 4%nat) "example.org" sampleRequest;
   OpSetHTTPVersionOverride true;
   TransportSuccess (sampleHandshake "h2") 9 10;
   OpConnect 11 0%nat sampleRequest;
   TransportError sampleError].

(** * Properties *)

Section Properties.

Context {env : Collaborators}.

Ltac unfold_monad :=
  cbv beta iota delta
    [bind ret gets modify emit fail logged DCHECK deref_socket_
     update_transportInfo_].

Ltac finish_step :=
  repeat split; auto; try congruence;
  try (intros ? Hsock; inversion Hsock; reflexivity).

Ltac silent_side Hq :=
  first [ exact Hq
        | let e := fresh "e" in
          intros e ?; destruct e; try reflexivity; discriminate ].

Ltac unfold_monad_in H :=
  cbv beta iota delta
    [bind ret gets modify emit fail logged DCHECK deref_socket_
     update_transportInfo_] in H.

Lemma Done_inj {A : Type} (a a' : A) (c c' : HTTPConnector) (tr tr' : Trace) :
  Done a c tr = Done a' c' tr' -> a = a' /\ c = c' /\ tr = tr'.
Proof. intros H. injection H. auto. Qed.

(** ** Protocol to codec resolution *)

Lemma isHTTP2Identifier_true (p : string) :
  isHTTP2Identifier p = true <-> HTTP2Identifier p.
Proof.
  unfold isHTTP2Identifier, HTTP2Identifier.
  rewrite !orb_true_iff, !String.eqb_eq. tauto.
Qed.

Lemma isHTTP2Identifier_false (p : string) :
  isHTTP2Identifier p = false <-> ~ HTTP2Identifier p.
Proof.
  rewrite <- isHTTP2Identifier_true.
  destruct (isHTTP2Identifier p); split; congruence.
Qed.

Lemma makeCodec_no_spdy (p : string) (force : bool) :
  SPDYCodec_getVersion p = None ->
  makeCodec p force =
  if isHTTP2Identifier p then (HTTP2Codec UPSTREAM, [])
  else (HTTP1xCodec UPSTREAM force,
        if negb (empty p) && negb (HTTP1xCodec_supportsNextProtocol p)
        then [LogError (unimplementedMessage p)] else []).
Proof.
  intros Hv. unfold makeCodec, isHTTP2Identifier. rewrite Hv. reflexivity.
Qed.

(** C1: [makeCodec] returns a SPDY codec exactly when [SPDYCodec::getVersion]
    recognises the protocol name as a SPDY version token; the codec then
    carries that very version and the upstream direction.  The SPDY test
    comes first: a recognised token yields the SPDY codec, and logs nothing,
    whatever the HTTP/2 identifiers and [supportsNextProtocol] say about the
    same name. *)
Theorem makeCodec_spdy_iff_version_token (p : string) (force : bool) :
  (forall dir v,
      fst (makeCodec p force) = SPDYCodec dir v <->
      dir = UPSTREAM /\ SPDYCodec_getVersion p = Some v) /\
  ((exists dir v, fst (makeCodec p force) = SPDYCodec dir v) <->
   SPDYCodec_getVersion p <> None) /\
  (forall v, SPDYCodec_getVersion p = Some v ->
             makeCodec p force = (SPDYCodec UPSTREAM v, [])).
Proof.
  assert (Hfirst : forall v, SPDYCodec_getVersion p = Some v ->
                             makeCodec p force = (SPDYCodec UPSTREAM v, [])).
  { intros v Hv. unfold makeCodec. rewrite Hv. reflexivity. }
  assert (Honly : forall dir v,
             fst (makeCodec p force) = SPDYCodec dir v ->
             dir = UPSTREAM /\ SPDYCodec_getVersion p = Some v).
  { intros dir v H. destruct (SPDYCodec_getVersion p) as [w|] eqn:Hv.
    - rewrite (Hfirst w eq_refl) in H. simpl in H.
      inversion H; subst. split; reflexivity.
    - rewrite (makeCodec_no_spdy p force Hv) in H.
      destruct (isHTTP2Identifier p); simpl in H; discriminate. }
  split; [|split].
  - intros dir v. split.
    + apply Honly.
    + intros [-> Hv]. rewrite (Hfirst v Hv). reflexivity.
  - split.
    + intros (dir & v & H). apply Honly in H. destruct H as [_ H].
      rewrite H. discriminate.
    + intros H. destruct (SPDYCodec_getVersion p) as [w|] eqn:Hv.
      * exists UPSTREAM, w. rewrite (Hfirst w eq_refl). reflexivity.
      * congruence.
  - exact Hfirst.
Qed.

(** C2: for a protocol name that is no SPDY version token, [makeCodec]
    returns the HTTP/2 codec when the name equals one of the four HTTP/2
    identifiers and the HTTP/1.x codec for every other name; the empty name
    is such an other name unless an identifier is itself empty, and then it
    is resolved without a log line. *)
Theorem makeCodec_http2_or_http1x (p : string) (force : bool) :
  SPDYCodec_getVersion p = None ->
  (HTTP2Identifier p -> makeCodec p force = (HTTP2Codec UPSTREAM, [])) /\
  (~ HTTP2Identifier p ->
   fst (makeCodec p force) = HTTP1xCodec UPSTREAM force) /\
  (~ HTTP2Identifier p -> p = EmptyString ->
   makeCodec p force = (HTTP1xCodec UPSTREAM force, [])).
Proof.
  intros Hv. rewrite (makeCodec_no_spdy p force Hv).
  split; [|split].
  - intros H. apply isHTTP2Identifier_true in H. rewrite H. reflexivity.
  - intros H. apply isHTTP2Identifier_false in H. rewrite H. reflexivity.
  - intros H ->. apply isHTTP2Identifier_false in H. rewrite H. reflexivity.
Qed.

(** ** [connectSuccess] *)

Lemma connectSuccess_attached (acceptNow sslNow : TimePoint)
    (c : HTTPConnector) (cb : Callback) (sock : AsyncSocket) :
  cb_ c = Some cb ->
  socket_ c = Some sock ->
  connectSuccess acceptNow sslNow c =
  Done tt
    (set_socket_ None
       (set_transportInfo_ (successTransportInfo acceptNow sslNow c sock) c))
    (successQueries c sock ++
     snd (makeCodec (chosenProtocol c sock) (forceHTTP1xCodecTo1_1_ c)) ++
     [SessionCreated (successSession acceptNow sslNow c sock);
      CallbackConnectSuccess cb (successSession acceptNow sslNow c sock)]).
Proof.
  intros Hcb Hsock.
  destruct c as [cb0 tmo so ti start proto force]. simpl in Hcb, Hsock. subst.
  unfold connectSuccess, record_ssl_info, successSession, successQueries,
    sslQueries, successTransportInfo, chosenProtocol.
  unfold_monad. simpl.
  destruct ti as [sec acc app setup ciph ver res]. simpl.
  destruct sec; simpl.
  - destruct (isSSL sock); simpl.
    + destruct (negotiatedCipherName (negotiated sock)); simpl;
        rewrite ?app_nil_r; reflexivity.
    + rewrite ?app_nil_r. reflexivity.
  - rewrite ?app_nil_r. reflexivity.
Qed.

Lemma successQueries_only_queries (c : HTTPConnector) (sock : AsyncSocket)
    (e : Event) :
  In e (successQueries c sock) -> exists q, e = Queried q.
Proof.
  unfold successQueries, sslQueries.
  destruct (secure (transportInfo_ c)), (isSSL sock),
    (negotiatedCipherName (negotiated sock));
    simpl; intros H;
    repeat (destruct H as [H | H]; [subst e; eexists; reflexivity|]);
    contradiction.
Qed.

(** C3: a non-empty protocol name that is no SPDY token, no HTTP/2
    identifier and not accepted by [HTTP1xCodec::supportsNextProtocol] does
    not make [makeCodec] fail: it logs one error line and returns the
    HTTP/1.x codec.  [connectSuccess] therefore still builds the session and
    hands it to the callback's success path, with that codec and the
    connected socket, and calls no error path. *)
Theorem unrecognized_protocol_falls_back_to_http1x (p : string) (force : bool) :
  p <> EmptyString ->
  SPDYCodec_getVersion p = None ->
  ~ HTTP2Identifier p ->
  HTTP1xCodec_supportsNextProtocol p = false ->
  makeCodec p force =
    (HTTP1xCodec UPSTREAM force, [LogError (unimplementedMessage p)]) /\
  forall acceptNow sslNow c cb sock,
    cb_ c = Some cb ->
    socket_ c = Some sock ->
    chosenProtocol c sock = p ->
    forceHTTP1xCodecTo1_1_ c = force ->
    exists c' tr session,
      connectSuccess acceptNow sslNow c = Done tt c' tr /\
      In (LogError (unimplementedMessage p)) tr /\
      In (SessionCreated session) tr /\
      In (CallbackConnectSuccess cb session) tr /\
      sessCodec session = HTTP1xCodec UPSTREAM force /\
      sessSock session = sock /\
      (forall cb' ex, ~ In (CallbackConnectError cb' ex) tr).
Proof.
  intros Hne Hv Hh2 Hh1.
  assert (Hmk : makeCodec p force =
                (HTTP1xCodec UPSTREAM force, [LogError (unimplementedMessage p)])).
  { rewrite (makeCodec_no_spdy p force Hv).
    apply isHTTP2Identifier_false in Hh2. rewrite Hh2, Hh1.
    destruct p; [congruence | reflexivity]. }
  split; [exact Hmk|].
  intros acceptNow sslNow c cb sock Hcb Hsock Hp Hf.
  rewrite (connectSuccess_attached acceptNow sslNow c cb sock Hcb Hsock).
  rewrite Hp, Hf, Hmk. simpl snd.
  do 3 eexists. split; [reflexivity|].
  split; [|split; [|split; [|split; [|split]]]].
  - apply in_or_app. right. simpl. auto.
  - apply in_or_app. right. simpl. auto.
  - apply in_or_app. right. simpl. auto.
  - unfold successSession. simpl. rewrite Hp, Hf, Hmk. reflexivity.
  - reflexivity.
  - intros cb' ex Hin. apply in_app_or in Hin. destruct Hin as [Hin | Hin].
    + apply successQueries_only_queries in Hin. destruct Hin as [q Hq].
      discriminate.
    + simpl in Hin.
      repeat (destruct Hin as [Hin | Hin]; [discriminate|]). contradiction.
Qed.

(** C7: with the callback reference detached, [connectSuccess] returns at
    once: the connector is unchanged and the trace is empty, so nothing is
    read from the transport, no codec or session is built and no callback is
    invoked. *)
Theorem connectSuccess_detached_noop (acceptNow sslNow : TimePoint)
    (c : HTTPConnector) :
  cb_ c = None ->
  connectSuccess acceptNow sslNow c = Done tt c [].
Proof.
  intros Hcb. unfold connectSuccess. unfold_monad. rewrite Hcb. reflexivity.
Qed.

(** ** Teardown of the owned socket *)

Lemma socket_reset_idle (depth : nat) (p : option AsyncSocket)
    (c : HTTPConnector) :
  socket_ c = None ->
  socket_reset depth p c = Done tt (set_socket_ p c) [].
Proof.
  intros H. destruct depth; simpl; unfold_monad; rewrite H; reflexivity.
Qed.

Lemma socket_reset_released (depth : nat) (p : option AsyncSocket)
    (c : HTTPConnector) (sock : AsyncSocket) :
  socket_ c = Some sock ->
  connectCallback_ sock = false ->
  socket_reset depth p c = Done tt (set_socket_ p c) [SocketDestroyed sock].
Proof.
  intros H Hcb.
  destruct depth; simpl; unfold_monad; rewrite H, Hcb; reflexivity.
Qed.

(** A socket destroyed while its connect is pending re-enters the connector
    through [connectErr]; the nested call finds [socket_] already null. *)
Lemma socket_reset_pending (d : nat) (c : HTTPConnector) (sock : AsyncSocket) :
  socket_ c = Some sock ->
  connectCallback_ sock = true ->
  socket_reset (S d) None c =
  Done tt (set_socket_ None c)
       (SocketDestroyed sock :: notified c socketClosedLocallyEx).
Proof.
  intros H Hcb. simpl. unfold_monad. rewrite H, Hcb.
  unfold connectErr_body. unfold_monad.
  rewrite (socket_reset_idle d None (set_socket_ None c) eq_refl).
  unfold notified. destruct c as [cb tmo so ti start proto force]. simpl.
  destruct cb; reflexivity.
Qed.

Lemma set_socket_None_idle (c : HTTPConnector) :
  socket_ c = None -> set_socket_ None c = c.
Proof. destruct c; simpl; intros ->; reflexivity. Qed.

Lemma connectErr_released (depth : nat) (ex : AsyncSocketException)
    (c : HTTPConnector) :
  callback_released c ->
  connectErr depth ex c =
  Done tt (set_socket_ None c) (destroyed c ++ notified c ex).
Proof.
  unfold callback_released, connectErr, connectErr_body, destroyed, notified.
  intros H. unfold_monad.
  destruct (socket_ c) as [sock|] eqn:Hs.
  - rewrite (socket_reset_released depth None c sock Hs H).
    destruct c as [cb tmo so ti start proto force]; simpl.
    destruct cb; reflexivity.
  - rewrite (socket_reset_idle depth None c Hs).
    destruct c as [cb tmo so ti start proto force]; simpl.
    destruct cb; reflexivity.
Qed.

Lemma reset_idle (depth : nat) (c : HTTPConnector) :
  socket_ c = None -> reset depth c = Done tt c [].
Proof.
  intros H. unfold reset. unfold_monad. rewrite H. reflexivity.
Qed.

Lemma reset_busy (depth : nat) (c : HTTPConnector) (sock : AsyncSocket) :
  (1 <= depth)%nat ->
  socket_ c = Some sock ->
  reset depth c = Done tt (set_socket_ None c) [SocketDestroyed sock].
Proof.
  intros Hd H. unfold reset. unfold_monad. rewrite H.
  destruct (connectCallback_ sock) eqn:Hcb.
  - destruct depth as [|d]; [lia|].
    rewrite (socket_reset_pending d (set_cb_ None c) sock);
      [|destruct c; exact H|exact Hcb].
    destruct c; reflexivity.
  - rewrite (socket_reset_released depth None (set_cb_ None c) sock);
      [|destruct c; exact H|exact Hcb].
    destruct c; reflexivity.
Qed.

(** Without the detached callback the same teardown would reach the
    caller's error path. *)
Lemma teardown_attached_notifies (d : nat) (c : HTTPConnector)
    (sock : AsyncSocket) (cb : Callback) :
  socket_ c = Some sock ->
  connectCallback_ sock = true ->
  cb_ c = Some cb ->
  socket_reset (S d) None c =
  Done tt (set_socket_ None c)
       [SocketDestroyed sock; CallbackConnectError cb socketClosedLocallyEx].
Proof.
  intros H Hp Hcb. rewrite (socket_reset_pending d c sock H Hp).
  unfold notified. rewrite Hcb. reflexivity.
Qed.

(** ** Starting an attempt *)

Lemma connect_idle (depth : nat) (now : TimePoint) (eb : EventBase)
    (r : ConnectRequest) (c : HTTPConnector) :
  socket_ c = None ->
  connect depth now eb r c =
  Done tt (started false now (plainSocket eb r) c)
       [ConnectStarted (plainSocket eb r)].
Proof.
  intros H. unfold connect, start_connect, isBusy. unfold_monad. rewrite H.
  simpl. unfold_monad.
  rewrite socket_reset_idle by (destruct c; exact H).
  destruct c; reflexivity.
Qed.

Lemma connectSSL_idle (depth : nat) (now : TimePoint) (eb : EventBase)
    (ctx : SSLContext) (session : option SSL_SESSION) (name : string)
    (r : ConnectRequest) (c : HTTPConnector) :
  socket_ c = None ->
  connectSSL depth now eb ctx session name r c =
  Done tt (started true now (secureSocket eb ctx session name r) c)
       [ConnectStarted (secureSocket eb ctx session name r)].
Proof.
  intros H. unfold connectSSL, start_connect, isBusy. unfold_monad. rewrite H.
  simpl. unfold_monad.
  rewrite socket_reset_idle by (destruct c; exact H).
  destruct c; reflexivity.
Qed.

Lemma connect_busy (depth : nat) (now : TimePoint) (eb : EventBase)
    (r : ConnectRequest) (c : HTTPConnector) :
  isBusy c = true -> connect depth now eb r c = Failed CheckFailed.
Proof.
  intros H. unfold connect. unfold_monad. rewrite H. reflexivity.
Qed.

Lemma connectSSL_busy (depth : nat) (now : TimePoint) (eb : EventBase)
    (ctx : SSLContext) (session : option SSL_SESSION) (name : string)
    (r : ConnectRequest) (c : HTTPConnector) :
  isBusy c = true ->
  connectSSL depth now eb ctx session name r c = Failed CheckFailed.
Proof.
  intros H. unfold connectSSL. unfold_monad. rewrite H. reflexivity.
Qed.

(** ** What the transport's reports do *)

Lemma transport_connectErr_pending (depth : nat) (ex : AsyncSocketException)
    (c : HTTPConnector) (sock : AsyncSocket) :
  socket_ c = Some sock ->
  connectCallback_ sock = true ->
  transport_connectErr depth ex c =
  Done tt (set_socket_ None c)
       (SocketDestroyed (AsyncSocket_fail sock) :: notified c ex).
Proof.
  intros H Hp. unfold transport_connectErr. unfold_monad. rewrite H, Hp.
  rewrite connectErr_released
    by (unfold callback_released; destruct c; reflexivity).
  destruct c; reflexivity.
Qed.

Lemma transport_connectSuccess_pending (h : Handshake)
    (acceptNow sslNow : TimePoint) (c : HTTPConnector) (sock : AsyncSocket)
    (cb : Callback) :
  socket_ c = Some sock ->
  connectCallback_ sock = true ->
  cb_ c = Some cb ->
  let sock1 := AsyncSocket_complete h sock in
  let c1 := set_socket_ (Some sock1) c in
  transport_connectSuccess h acceptNow sslNow c =
  Done tt
    (set_socket_ None
       (set_transportInfo_ (successTransportInfo acceptNow sslNow c1 sock1) c1))
    (successQueries c1 sock1 ++
     snd (makeCodec (chosenProtocol c1 sock1) (forceHTTP1xCodecTo1_1_ c1)) ++
     [SessionCreated (successSession acceptNow sslNow c1 sock1);
      CallbackConnectSuccess cb (successSession acceptNow sslNow c1 sock1)]).
Proof.
  intros H Hp Hcb sock1 c1.
  unfold transport_connectSuccess. unfold_monad. rewrite H, Hp.
  fold sock1. fold c1.
  rewrite (connectSuccess_attached acceptNow sslNow c1 cb sock1)
    by (subst c1; destruct c; simpl in *; congruence).
  reflexivity.
Qed.

Lemma reset_outcome (depth : nat) (c : HTTPConnector) :
  reset depth c = Done tt (set_socket_ None c) (destroyed c) \/
  reset depth c = Failed DepthExhausted.
Proof.
  unfold destroyed. destruct (socket_ c) as [sock|] eqn:H.
  - destruct depth as [|d].
    + destruct (connectCallback_ sock) eqn:Hp.
      * right. unfold reset. unfold_monad. rewrite H. simpl. unfold_monad.
        destruct c; simpl in *. rewrite H, Hp. reflexivity.
      * left. unfold reset. unfold_monad. rewrite H.
        rewrite (socket_reset_released 0 None (set_cb_ None c) sock);
          [|destruct c; exact H|exact Hp].
        destruct c; reflexivity.
    + left. apply reset_busy; [lia | exact H].
  - left. rewrite (set_socket_None_idle c H). apply reset_idle. exact H.
Qed.

(** ** Runs *)

Lemma run_cons (depth : nat) (o : Op) (rest : list Op)
    (c c' : HTTPConnector) (tr : Trace) :
  run depth (o :: rest) c = Done tt c' tr ->
  exists c1 t1 t2,
    exec depth o c = Done tt c1 t1 /\
    run depth rest c1 = Done tt c' t2 /\
    tr = t1 ++ t2.
Proof.
  simpl. unfold bind.
  destruct (exec depth o c) as [[] c1 t1|f] eqn:He; [|discriminate].
  destruct (run depth rest c1) as [[] c2 t2|f] eqn:Hr; [|discriminate].
  intros H. inversion H; subst. exists c1, t1, t2.
  split; [reflexivity|]. split; [exact Hr | reflexivity].
Qed.

Lemma exec_step (depth : nat) (o : Op) (c c' : HTTPConnector) (tr : Trace) :
  between_calls c ->
  exec depth o c = Done tt c' tr ->
  between_calls c' /\
  cb_ c' = cb_ c /\
  isBusy c' = busyAfter o (isBusy c) /\
  connectStart_ c' = startAfter o (connectStart_ c).
Proof.
  intros [Hcb Hpend] H. unfold between_calls.
  destruct o as [now eb r | now eb ctx sess name r | | p | b | h acceptNow sslNow | ex]; simpl in H.
  - destruct (socket_ c) as [sock|] eqn:Hs.
    + rewrite connect_busy in H by (unfold isBusy; rewrite Hs; reflexivity).
      discriminate.
    + rewrite (connect_idle depth now eb r c Hs) in H.
      inversion H; subst; simpl. finish_step.
  - destruct (socket_ c) as [sock|] eqn:Hs.
    + rewrite connectSSL_busy in H by (unfold isBusy; rewrite Hs; reflexivity).
      discriminate.
    + rewrite (connectSSL_idle depth now eb ctx sess name r c Hs) in H.
      inversion H; subst; simpl. finish_step.
  - destruct (reset_outcome depth c) as [E | E]; rewrite E in H;
      [|discriminate].
    inversion H; subst. destruct c; simpl in *.
    finish_step.
  - unfold setPlaintextProtocol, modify in H. inversion H; subst.
    destruct c; simpl in *. finish_step.
  - unfold setHTTPVersionOverride, modify in H. inversion H; subst.
    destruct c; simpl in *. finish_step.
  - destruct (socket_ c) as [sock|] eqn:Hs.
    + destruct (cb_ c) as [cb|] eqn:Hc; [|congruence].
      rewrite (transport_connectSuccess_pending h acceptNow sslNow c sock cb
                 Hs (Hpend sock eq_refl) Hc) in H.
      inversion H; subst. destruct c; simpl in *.
      finish_step.
    + unfold transport_connectSuccess in H. unfold_monad_in H.
      rewrite Hs in H. discriminate.
  - destruct (socket_ c) as [sock|] eqn:Hs.
    + rewrite (transport_connectErr_pending depth ex c sock Hs
                 (Hpend sock eq_refl)) in H.
      inversion H; subst. destruct c; simpl in *.
      finish_step.
    + unfold transport_connectErr in H. unfold_monad_in H.
      rewrite Hs in H. discriminate.
Qed.

Lemma run_steps (depth : nat) (ops : list Op) (c c' : HTTPConnector)
    (tr : Trace) :
  between_calls c ->
  run depth ops c = Done tt c' tr ->
  between_calls c' /\
  cb_ c' = cb_ c /\
  isBusy c' = fold_left (fun b o => busyAfter o b) ops (isBusy c) /\
  connectStart_ c' = fold_left (fun t o => startAfter o t) ops (connectStart_ c).
Proof.
  revert c tr. induction ops as [|o ops IH]; intros c tr Hinv H.
  - simpl in H. inversion H; subst. simpl. auto.
  - apply run_cons in H. destruct H as (c1 & t1 & t2 & He & Hr & ->).
    destruct (exec_step depth o c c1 t1 Hinv He) as (Hinv1 & Hc1 & Hb1 & Hs1).
    destruct (IH c1 t2 Hinv1 Hr) as (Hinv' & Hc' & Hb' & Hs').
    simpl. rewrite <- Hb1, <- Hs1.
    split; [exact Hinv'|]. split; [congruence|]. split; assumption.
Qed.

Lemma new_between_calls (cb : Callback) (timeout : WheelTimerInstance)
    (c0 : HTTPConnector) :
  HTTPConnector_new (Some cb) timeout = Some c0 ->
  between_calls c0 /\ socket_ c0 = None /\ cb_ c0 = Some cb /\
  connectStart_ c0 = TimePoint_default.
Proof.
  simpl. intros H. inversion H; subst. unfold between_calls. simpl.
  repeat split; [discriminate | intros sock Hs; discriminate].
Qed.

Lemma fold_busy_setters (mid : list Op) (b : bool) :
  forallb isSetter mid = true ->
  fold_left (fun b o => busyAfter o b) mid b = b.
Proof.
  revert b. induction mid as [|o mid IH]; intros b H; [reflexivity|].
  simpl in H. apply andb_true_iff in H. destruct H as [Ho Hm].
  simpl. rewrite (IH _ Hm). destruct o; simpl in *; congruence.
Qed.

Lemma fold_start_noAttempt (mid : list Op) (t : TimePoint) :
  noAttempt mid ->
  fold_left (fun t o => startAfter o t) mid t = t.
Proof.
  unfold noAttempt. revert t.
  induction mid as [|o mid IH]; intros t H; [reflexivity|].
  simpl in H. apply andb_true_iff in H. destruct H as [Ho Hm].
  simpl. rewrite (IH _ Hm). unfold startAfter, startsAttempt in *.
  destruct (connectTime o); [discriminate | reflexivity].
Qed.

(** With room for one nested call, an operation can only fail because it
    is not allowed: a connect on a busy connector, or a report from the
    transport when no connect is pending. *)
Lemma exec_failures (depth : nat) (o : Op) (c : HTTPConnector) (f : Fault) :
  (1 <= depth)%nat ->
  between_calls c ->
  exec depth o c = Failed f ->
  f = CheckFailed \/ f = NoPendingConnect.
Proof.
  intros Hd [Hcb Hpend].
  destruct o as [now eb r | now eb ctx sess name r | | p | b | h acceptNow sslNow | ex]; cbn [exec].
  - destruct (socket_ c) as [sock|] eqn:Hs.
    + rewrite connect_busy by (unfold isBusy; rewrite Hs; reflexivity).
      intros H; injection H as <-; auto.
    + rewrite (connect_idle _ _ _ _ _ Hs). discriminate.
  - destruct (socket_ c) as [sock|] eqn:Hs.
    + rewrite connectSSL_busy by (unfold isBusy; rewrite Hs; reflexivity).
      intros H; injection H as <-; auto.
    + rewrite (connectSSL_idle _ _ _ _ _ _ _ _ Hs). discriminate.
  - destruct (socket_ c) as [sock|] eqn:Hs.
    + rewrite (reset_busy depth c sock Hd Hs). discriminate.
    + rewrite (reset_idle depth c Hs). discriminate.
  - unfold setPlaintextProtocol, modify. discriminate.
  - unfold setHTTPVersionOverride, modify. discriminate.
  - destruct (socket_ c) as [sock|] eqn:Hs.
    + destruct (cb_ c) as [cb|] eqn:Hc; [|congruence].
      rewrite (transport_connectSuccess_pending h acceptNow sslNow c sock cb
                 Hs (Hpend sock eq_refl) Hc). discriminate.
    + unfold transport_connectSuccess. unfold_monad. rewrite Hs.
      intros H; injection H as <-; auto.
  - destruct (socket_ c) as [sock|] eqn:Hs.
    + rewrite (transport_connectErr_pending depth ex c sock Hs
                 (Hpend sock eq_refl)). discriminate.
    + unfold transport_connectErr. unfold_monad. rewrite Hs.
      intros H; injection H as <-; auto.
Qed.

Lemma run_failures (depth : nat) (ops : list Op) (c : HTTPConnector)
    (f : Fault) :
  (1 <= depth)%nat ->
  between_calls c ->
  run depth ops c = Failed f ->
  f = CheckFailed \/ f = NoPendingConnect.
Proof.
  intros Hd. revert c. induction ops as [|o ops IH]; intros c Hinv.
  - discriminate.
  - simpl. unfold bind.
    destruct (exec depth o c) as [[] c1 t1|g] eqn:He.
    + destruct (exec_step depth o c c1 t1 Hinv He) as [Hinv1 _].
      specialize (IH c1 Hinv1).
      destruct (run depth ops c1) as [[] c2 t2|g]; [discriminate|].
      intros H; injection H as <-. apply IH. reflexivity.
    + intros H; injection H as <-.
      exact (exec_failures depth o c g Hd Hinv He).
Qed.

(** ** Cancellation *)

(** C4: [reset] on a connector that owns a socket returns, given room for
    the one nested call, having invoked no callback at all, in particular
    not the caller's error path, although the destruction of a socket whose
    connect is pending does call [connectErr] and would reach that error
    path were the callback attached.  Afterwards no socket is owned,
    [isBusy] is false, the callback reference is back, and [connect] and
    [connectSSL] pass their precondition and start a new attempt. *)
Theorem reset_suppresses_error_callback (depth : nat) (c : HTTPConnector)
    (sock : AsyncSocket) :
  (1 <= depth)%nat ->
  socket_ c = Some sock ->
  exists c' tr,
    reset depth c = Done tt c' tr /\
    noCallback tr /\
    (forall cb ex, ~ In (CallbackConnectError cb ex) tr) /\
    socket_ c' = None /\
    isBusy c' = false /\
    cb_ c' = cb_ c /\
    (forall cb, cb_ c = Some cb -> connectCallback_ sock = true ->
       socket_reset depth None c =
       Done tt (set_socket_ None c)
            [SocketDestroyed sock;
             CallbackConnectError cb socketClosedLocallyEx]) /\
    (forall now eb r, exists c2 tr2,
       connect depth now eb r c' = Done tt c2 tr2 /\ isBusy c2 = true) /\
    (forall now eb ctx sess name r, exists c2 tr2,
       connectSSL depth now eb ctx sess name r c' = Done tt c2 tr2 /\
       isBusy c2 = true).
Proof.
  intros Hd Hs.
  exists (set_socket_ None c), [SocketDestroyed sock].
  assert (Hidle : socket_ (set_socket_ None c) = None) by reflexivity.
  split; [apply reset_busy; assumption|].
  split; [reflexivity|].
  split.
  { intros cb ex [H | []]. discriminate. }
  split; [reflexivity|].
  split; [reflexivity|].
  split; [destruct c; reflexivity|].
  split.
  { intros cb Hcb Hp. destruct depth as [|d]; [lia|].
    apply teardown_attached_notifies; assumption. }
  split.
  - intros now eb r. do 2 eexists.
    split; [apply connect_idle; exact Hidle | reflexivity].
  - intros now eb ctx sess name r. do 2 eexists.
    split; [apply connectSSL_idle; exact Hidle | reflexivity].
Qed.

(** C10: [reset] on a connector that owns no socket changes nothing and
    has no effect; on any connector it leaves the callback reference as it
    found it, and a second [reset] right after the first changes nothing
    more.  The destructor of an idle connector therefore destroys no socket
    and notifies nobody. *)
Theorem reset_idempotent_and_noop_when_idle (depth : nat) (c : HTTPConnector) :
  (1 <= depth)%nat ->
  (socket_ c = None -> reset depth c = Done tt c []) /\
  (exists c' tr,
     reset depth c = Done tt c' tr /\
     cb_ c' = cb_ c /\
     noCallback tr /\
     reset depth c' = Done tt c' []) /\
  (socket_ c = None -> destructor depth c = Done tt c []).
Proof.
  intros Hd. split; [apply reset_idle|]. split; [|apply reset_idle].
  destruct (socket_ c) as [sock|] eqn:Hs.
  - exists (set_socket_ None c), [SocketDestroyed sock].
    split; [apply reset_busy; assumption|].
    split; [destruct c; reflexivity|].
    split; [reflexivity|].
    apply reset_idle. reflexivity.
  - exists c, []. rewrite (reset_idle depth c Hs).
    split; [reflexivity|]. split; [reflexivity|]. split; reflexivity.
Qed.

(** ** The transport's error report *)

(** C5: whenever [connectErr] is called (the socket, if still owned, having
    released its connect callback, as it has at every call), the call
    returns with the owned socket destroyed and [socket_] null, so the
    connector is idle.  With a callback attached the trace holds exactly
    one callback event, the error path of that callback with the very
    exception received; with none attached it holds no callback event.  No
    session is built or delivered, and nothing else of the connector
    changes. *)
Theorem connectErr_discards_and_notifies_once (depth : nat)
    (ex : AsyncSocketException) (c : HTTPConnector) :
  callback_released c ->
  exists c' tr,
    connectErr depth ex c = Done tt c' tr /\
    c' = set_socket_ None c /\
    socket_ c' = None /\
    isBusy c' = false /\
    tr = destroyed c ++ notified c ex /\
    (forall cb, cb_ c = Some cb ->
       filter isCallbackEvent tr = [CallbackConnectError cb ex]) /\
    (cb_ c = None -> filter isCallbackEvent tr = []) /\
    noSession tr.
Proof.
  intros Hrel. do 2 eexists.
  split; [apply connectErr_released; exact Hrel|].
  split; [reflexivity|]. split; [reflexivity|]. split; [reflexivity|].
  split; [reflexivity|].
  unfold destroyed, notified, noSession.
  destruct (socket_ c), (cb_ c); simpl;
    (split; [intros cb' H; congruence|]);
    (split; [intros H; congruence|]); reflexivity.
Qed.

(** The same, for the report as the transport delivers it. *)
Lemma transport_connectErr_notifies_once (depth : nat)
    (ex : AsyncSocketException) (c : HTTPConnector) (sock : AsyncSocket)
    (cb : Callback) :
  socket_ c = Some sock ->
  connectCallback_ sock = true ->
  cb_ c = Some cb ->
  transport_connectErr depth ex c =
  Done tt (set_socket_ None c)
       [SocketDestroyed (AsyncSocket_fail sock); CallbackConnectError cb ex].
Proof.
  intros Hs Hp Hcb.
  rewrite (transport_connectErr_pending depth ex c sock Hs Hp).
  unfold notified. rewrite Hcb. reflexivity.
Qed.

(** ** Ownership of the socket along a run *)

Lemma fold_busy_after_attempt (pre mid : list Op) (o : Op) (b : bool) :
  startsAttempt o = true ->
  forallb isSetter mid = true ->
  fold_left (fun b o => busyAfter o b) (pre ++ o :: mid) b = true.
Proof.
  intros Ho Hm. rewrite fold_left_app. simpl.
  rewrite (fold_busy_setters mid _ Hm).
  destruct o; try reflexivity; discriminate Ho.
Qed.

Lemma fold_start_after_attempt (pre mid : list Op) (o : Op)
    (start t : TimePoint) :
  connectTime o = Some start ->
  noAttempt mid ->
  fold_left (fun t o => startAfter o t) (pre ++ o :: mid) t = start.
Proof.
  intros Ho Hm. rewrite fold_left_app. simpl.
  rewrite (fold_start_noAttempt mid _ Hm).
  unfold startAfter. rewrite Ho. reflexivity.
Qed.

(** C6: along every run of operations on a constructed connector, once
    [connect] or [connectSSL] has returned and as long as only the setters
    are called, a socket is owned and [isBusy] is true.  When the transport
    then reports success, the connector is left without a socket, [isBusy]
    is false, and the socket sits in the session handed to the callback;
    when it reports an error, the socket is destroyed, the connector is
    left without one and [isBusy] is false. *)
Theorem isBusy_from_connect_to_terminal_callback (depth : nat) (cb : Callback)
    (timeout : WheelTimerInstance) (c0 : HTTPConnector) :
  HTTPConnector_new (Some cb) timeout = Some c0 ->
  (forall pre o mid c tr,
      startsAttempt o = true ->
      forallb isSetter mid = true ->
      run depth (pre ++ o :: mid) c0 = Done tt c tr ->
      isBusy c = true /\ exists sock, socket_ c = Some sock) /\
  (forall pre h acceptNow sslNow c1 tr1 c tr,
      run depth pre c0 = Done tt c1 tr1 ->
      exec depth (TransportSuccess h acceptNow sslNow) c1 = Done tt c tr ->
      isBusy c = false /\ socket_ c = None /\
      exists sock session,
        socket_ c1 = Some sock /\
        In (CallbackConnectSuccess cb session) tr /\
        sessSock session = AsyncSocket_complete h sock) /\
  (forall pre ex c1 tr1 c tr,
      run depth pre c0 = Done tt c1 tr1 ->
      exec depth (TransportError ex) c1 = Done tt c tr ->
      isBusy c = false /\ socket_ c = None /\
      exists sock,
        socket_ c1 = Some sock /\
        tr = [SocketDestroyed (AsyncSocket_fail sock);
              CallbackConnectError cb ex]).
Proof.
  intros Hnew.
  destruct (new_between_calls cb timeout c0 Hnew) as (Hinv0 & Hs0 & Hcb0 & _).
  split; [|split].
  - intros pre o mid c tr Ho Hm Hrun.
    destruct (run_steps depth _ c0 c tr Hinv0 Hrun) as (_ & _ & Hb & _).
    rewrite (fold_busy_after_attempt pre mid o _ Ho Hm) in Hb.
    split; [exact Hb|]. unfold isBusy in Hb.
    destruct (socket_ c) as [sock|]; [exists sock; reflexivity | discriminate].
  - intros pre h acceptNow sslNow c1 tr1 c tr Hrun Hexec.
    destruct (run_steps depth pre c0 c1 tr1 Hinv0 Hrun) as (Hinv1 & Hc1 & _).
    rewrite Hcb0 in Hc1. destruct Hinv1 as [_ Hpend]. cbn [exec] in Hexec.
    destruct (socket_ c1) as [sock|] eqn:Hs.
    + rewrite (transport_connectSuccess_pending h acceptNow sslNow c1 sock cb
                 Hs (Hpend sock eq_refl) Hc1) in Hexec.
      apply Done_inj in Hexec. destruct Hexec as (_ & <- & <-).
      split; [reflexivity|]. split; [reflexivity|].
      exists sock. eexists. split; [reflexivity|]. split.
      * apply in_or_app. right. apply in_or_app. right. simpl. right. left.
        reflexivity.
      * reflexivity.
    + unfold transport_connectSuccess in Hexec. unfold_monad_in Hexec.
      rewrite Hs in Hexec. discriminate.
  - intros pre ex c1 tr1 c tr Hrun Hexec.
    destruct (run_steps depth pre c0 c1 tr1 Hinv0 Hrun) as (Hinv1 & Hc1 & _).
    rewrite Hcb0 in Hc1. destruct Hinv1 as [_ Hpend]. cbn [exec] in Hexec.
    destruct (socket_ c1) as [sock|] eqn:Hs.
    + rewrite (transport_connectErr_notifies_once depth ex c1 sock cb
                 Hs (Hpend sock eq_refl) Hc1) in Hexec.
      apply Done_inj in Hexec. destruct Hexec as (_ & <- & <-).
      split; [reflexivity|]. split; [reflexivity|].
      exists sock. split; reflexivity.
    + unfold transport_connectErr in Hexec. unfold_monad_in Hexec.
      rewrite Hs in Hexec. discriminate.
Qed.

(** ** Elapsed time *)

(** C8: provided [timePointInitialized] rejects the default-constructed
    time point, [timeElapsed] is zero on a connector on which neither
    [connect] nor [connectSSL] was ever called; and right after either of
    them has recorded a clock reading that [timePointInitialized] accepts,
    [timeElapsed] is the duration from that reading to the current one. *)
Theorem timeElapsed_zero_then_since_connect_start (depth : nat) (cb : Callback)
    (timeout : WheelTimerInstance) (c0 : HTTPConnector) :
  timePointInitialized TimePoint_default = false ->
  HTTPConnector_new (Some cb) timeout = Some c0 ->
  (forall now, timeElapsed now c0 = 0) /\
  (forall ops c tr now,
      noAttempt ops ->
      run depth ops c0 = Done tt c tr ->
      timeElapsed now c = 0) /\
  (forall pre o start c1 tr1 c tr now,
      run depth pre c0 = Done tt c1 tr1 ->
      connectTime o = Some start ->
      timePointInitialized start = true ->
      exec depth o c1 = Done tt c tr ->
      connectStart_ c = start /\
      timeElapsed now c = millisecondsSince now start /\
      timeElapsed now c = now - start).
Proof.
  intros Hdef Hnew.
  destruct (new_between_calls cb timeout c0 Hnew) as (Hinv0 & _ & _ & Hst0).
  split; [|split].
  - intros now. unfold timeElapsed. rewrite Hst0, Hdef. reflexivity.
  - intros ops c tr now Hno Hrun.
    destruct (run_steps depth ops c0 c tr Hinv0 Hrun) as (_ & _ & _ & Hst).
    rewrite (fold_start_noAttempt ops _ Hno), Hst0 in Hst.
    unfold timeElapsed. rewrite Hst, Hdef. reflexivity.
  - intros pre o start c1 tr1 c tr now Hrun Ho Hinit Hexec.
    destruct (run_steps depth pre c0 c1 tr1 Hinv0 Hrun) as (Hinv1 & _).
    destruct (exec_step depth o c1 c tr Hinv1 Hexec) as (_ & _ & _ & Hst).
    unfold startAfter in Hst. rewrite Ho in Hst.
    unfold timeElapsed. rewrite Hst, Hinit. auto.
Qed.

(** C9 (amended): the connect start is never cleared.  Once [connect] or
    [connectSSL] has recorded a clock reading that [timePointInitialized]
    accepts, then whatever follows short of another connect (success or
    error reported by the transport, [reset], the setters), the recorded
    start is still that reading and [timeElapsed] is the current clock
    reading minus it: positive once the clock has moved past the start, and
    zero exactly while the clock still reads the start. *)
Theorem connectStart_survives_termination (depth : nat) (cb : Callback)
    (timeout : WheelTimerInstance) (c0 : HTTPConnector)
    (pre mid : list Op) (o : Op) (start now : TimePoint)
    (c : HTTPConnector) (tr : Trace) :
  HTTPConnector_new (Some cb) timeout = Some c0 ->
  connectTime o = Some start ->
  timePointInitialized start = true ->
  noAttempt mid ->
  run depth (pre ++ o :: mid) c0 = Done tt c tr ->
  connectStart_ c = start /\
  timeElapsed now c = now - start /\
  (start < now -> 0 < timeElapsed now c) /\
  (timeElapsed now c = 0 <-> now = start).
Proof.
  intros Hnew Ho Hinit Hno Hrun.
  destruct (new_between_calls cb timeout c0 Hnew) as (Hinv0 & _).
  destruct (run_steps depth _ c0 c tr Hinv0 Hrun) as (_ & _ & _ & Hst).
  rewrite (fold_start_after_attempt pre mid o start _ Ho Hno) in Hst.
  assert (He : timeElapsed now c = now - start).
  { unfold timeElapsed, millisecondsSince. rewrite Hst, Hinit. reflexivity. }
  split; [exact Hst|]. split; [exact He|]. rewrite He. split; lia.
Qed.

(** * Further properties of the code *)

(** ** [makeCodec] *)

(** X1: [makeCodec] logs exactly when it falls back to HTTP/1.x for a
    non-empty name that [supportsNextProtocol] rejects, and then it logs
    one line; a SPDY token, an HTTP/2 identifier, a name HTTP/1.x supports
    and the empty name are resolved silently. *)
Theorem makeCodec_logs_iff_unimplemented (p : string) (force : bool) :
  (unimplemented p ->
   snd (makeCodec p force) = [LogError (unimplementedMessage p)]) /\
  (~ unimplemented p -> snd (makeCodec p force) = []).
Proof.
  unfold unimplemented.
  destruct (SPDYCodec_getVersion p) as [v|] eqn:Hv.
  - split.
    + intros [H _]. discriminate.
    + intros _. unfold makeCodec. rewrite Hv. reflexivity.
  - rewrite (makeCodec_no_spdy p force Hv).
    destruct (isHTTP2Identifier p) eqn:Hh2.
    + apply isHTTP2Identifier_true in Hh2. split.
      * intros (_ & H & _). contradiction.
      * reflexivity.
    + apply isHTTP2Identifier_false in Hh2. simpl.
      destruct p as [|a p'].
      * split; [intros (_ & _ & H & _); congruence | reflexivity].
      * simpl.
        destruct (HTTP1xCodec_supportsNextProtocol (String a p')) eqn:Hs.
        -- split; [intros (_ & _ & _ & H); discriminate | reflexivity].
        -- split; [reflexivity|].
           intros H. exfalso. apply H.
           repeat split; auto; discriminate.
Qed.

(** X2: every codec [makeCodec] builds is an upstream codec, and the
    HTTP/1.1 override reaches nothing but the HTTP/1.x codec: with two
    values of the flag the log is the same, and the codecs are either the
    two HTTP/1.x codecs carrying the respective flags or one and the same
    SPDY or HTTP/2 codec. *)
Theorem makeCodec_override_only_in_http1x (p : string) (f1 f2 : bool) :
  codecDirection (fst (makeCodec p f1)) = UPSTREAM /\
  snd (makeCodec p f1) = snd (makeCodec p f2) /\
  ((fst (makeCodec p f1) = HTTP1xCodec UPSTREAM f1 /\
    fst (makeCodec p f2) = HTTP1xCodec UPSTREAM f2) \/
   (fst (makeCodec p f1) = fst (makeCodec p f2) /\
    forall dir f, fst (makeCodec p f1) <> HTTP1xCodec dir f)).
Proof.
  destruct (SPDYCodec_getVersion p) as [v|] eqn:Hv.
  - unfold makeCodec. rewrite Hv. simpl.
    split; [reflexivity|]. split; [reflexivity|].
    right. split; [reflexivity | discriminate].
  - rewrite !(makeCodec_no_spdy p _ Hv).
    destruct (isHTTP2Identifier p); simpl.
    + split; [reflexivity|]. split; [reflexivity|].
      right. split; [reflexivity | discriminate].
    + split; [reflexivity|]. split; [reflexivity|]. left. split; reflexivity.
Qed.

(** ** [timeElapsed] *)

(** X3: as the clock advances [timeElapsed] never decreases, whether or not
    an attempt was ever started, and it is not negative from the recorded
    connect start on. *)
Theorem timeElapsed_monotone (now1 now2 : TimePoint) (c : HTTPConnector) :
  now1 <= now2 ->
  timeElapsed now1 c <= timeElapsed now2 c /\
  (connectStart_ c <= now1 -> 0 <= timeElapsed now1 c).
Proof.
  intros H. unfold timeElapsed, millisecondsSince.
  destruct (timePointInitialized (connectStart_ c)); split; intros; lia.
Qed.

(** ** The trace of one operation *)

Lemma flat_map_silent {B : Type} (g : Event -> list B) (l : Trace) :
  (forall e, silent e = true -> g e = []) ->
  forallb silent l = true ->
  flat_map g l = [].
Proof.
  intros Hg. induction l as [|e l IH]; intros H; [reflexivity|].
  simpl in H. apply andb_true_iff in H. destruct H as [He Hl].
  simpl. rewrite (Hg e He), (IH Hl). reflexivity.
Qed.

Lemma filter_silent (g : Event -> bool) (l : Trace) :
  (forall e, silent e = true -> g e = false) ->
  forallb silent l = true ->
  filter g l = [].
Proof.
  intros Hg. induction l as [|e l IH]; intros H; [reflexivity|].
  simpl in H. apply andb_true_iff in H. destruct H as [He Hl].
  simpl. rewrite (Hg e He). exact (IH Hl).
Qed.

Lemma makeCodec_log_silent (p : string) (force : bool) :
  forallb silent (snd (makeCodec p force)) = true.
Proof.
  unfold makeCodec.
  destruct (SPDYCodec_getVersion p); [reflexivity|].
  match goal with |- context [if ?b then (HTTP2Codec _, _) else _] =>
    destruct b end; [reflexivity|]. simpl.
  match goal with |- context [if ?b then [_] else []] =>
    destruct b end; reflexivity.
Qed.

Lemma success_prefix_silent (c : HTTPConnector) (sock : AsyncSocket)
    (p : string) (force : bool) :
  forallb silent (successQueries c sock ++ snd (makeCodec p force)) = true.
Proof.
  rewrite forallb_app, makeCodec_log_silent, andb_true_r.
  apply forallb_forall. intros e He.
  apply successQueries_only_queries in He. destruct He as [q ->].
  reflexivity.
Qed.

(** What each operation adds to the trace, between calls. *)
Lemma exec_trace (depth : nat) (o : Op) (c c' : HTTPConnector) (tr : Trace)
    (cb : Callback) :
  between_calls c ->
  cb_ c = Some cb ->
  exec depth o c = Done tt c' tr ->
  match o with
  | OpConnect _ eb r =>
    socket_ c = None /\ tr = [ConnectStarted (plainSocket eb r)]
  | OpConnectSSL _ eb ctx sess name r =>
    socket_ c = None /\
    tr = [ConnectStarted (secureSocket eb ctx sess name r)]
  | OpReset => tr = destroyed c
  | OpSetPlaintextProtocol _ | OpSetHTTPVersionOverride _ => tr = []
  | TransportSuccess h acceptNow sslNow =>
    exists sock quiet session,
      socket_ c = Some sock /\
      forallb silent quiet = true /\
      tr = quiet ++ [SessionCreated session;
                     CallbackConnectSuccess cb session]
  | TransportError ex =>
    exists sock,
      socket_ c = Some sock /\
      tr = [SocketDestroyed (AsyncSocket_fail sock);
            CallbackConnectError cb ex]
  end.
Proof.
  intros [_ Hpend] Hcb H.
  destruct o as [now eb r | now eb ctx sess name r | | p | b
                 | h acceptNow sslNow | ex]; cbn [exec] in H.
  - destruct (socket_ c) as [sock|] eqn:Hs.
    + rewrite connect_busy in H by (unfold isBusy; rewrite Hs; reflexivity).
      discriminate.
    + rewrite (connect_idle depth now eb r c Hs) in H.
      apply Done_inj in H. destruct H as (_ & _ & <-). auto.
  - destruct (socket_ c) as [sock|] eqn:Hs.
    + rewrite connectSSL_busy in H by (unfold isBusy; rewrite Hs; reflexivity).
      discriminate.
    + rewrite (connectSSL_idle depth now eb ctx sess name r c Hs) in H.
      apply Done_inj in H. destruct H as (_ & _ & <-). auto.
  - destruct (reset_outcome depth c) as [E | E]; rewrite E in H;
      [|discriminate].
    apply Done_inj in H. destruct H as (_ & _ & <-). reflexivity.
  - unfold setPlaintextProtocol, modify in H.
    apply Done_inj in H. destruct H as (_ & _ & <-). reflexivity.
  - unfold setHTTPVersionOverride, modify in H.
    apply Done_inj in H. destruct H as (_ & _ & <-). reflexivity.
  - destruct (socket_ c) as [sock|] eqn:Hs.
    + rewrite (transport_connectSuccess_pending h acceptNow sslNow c sock cb
                 Hs (Hpend sock eq_refl) Hcb) in H.
      apply Done_inj in H. destruct H as (_ & _ & <-).
      exists sock. do 2 eexists. split; [reflexivity|].
      split; [apply success_prefix_silent|].
      rewrite app_assoc. reflexivity.
    + unfold transport_connectSuccess in H. unfold_monad_in H.
      rewrite Hs in H. discriminate.
  - destruct (socket_ c) as [sock|] eqn:Hs.
    + rewrite (transport_connectErr_notifies_once depth ex c sock cb
                 Hs (Hpend sock eq_refl) Hcb) in H.
      apply Done_inj in H. destruct H as (_ & _ & <-).
      exists sock. split; reflexivity.
    + unfold transport_connectErr in H. unfold_monad_in H.
      rewrite Hs in H. discriminate.
Qed.

(** ** Whole runs *)

Lemma run_compositional (depth : nat)
    (P : HTTPConnector -> list Op -> Trace -> HTTPConnector -> Prop) :
  (forall c, P c [] [] c) ->
  (forall c o c1 t1 ops t2 c2,
      between_calls c ->
      exec depth o c = Done tt c1 t1 ->
      P c1 ops t2 c2 ->
      P c (o :: ops) (t1 ++ t2) c2) ->
  forall ops c c' tr,
    between_calls c ->
    run depth ops c = Done tt c' tr ->
    P c ops tr c'.
Proof.
  intros Hnil Hcons. induction ops as [|o ops IH]; intros c c' tr Hinv H.
  - simpl in H. apply Done_inj in H. destruct H as (_ & <- & <-). apply Hnil.
  - apply run_cons in H. destruct H as (c1 & t1 & t2 & He & Hr & ->).
    destruct (exec_step depth o c c1 t1 Hinv He) as [Hinv1 _].
    exact (Hcons c o c1 t1 ops t2 c' Hinv He (IH c1 c' t2 Hinv1 Hr)).
Qed.

Lemma exec_callbacks (depth : nat) (o : Op) (c c' : HTTPConnector)
    (tr : Trace) (cb : Callback) :
  between_calls c ->
  cb_ c = Some cb ->
  exec depth o c = Done tt c' tr ->
  flat_map callbackOf tr = map (pair cb) (reportOf o).
Proof.
  intros Hinv Hcb H. pose proof (exec_trace depth o c c' tr cb Hinv Hcb H) as T.
  destruct o; simpl in T |- *.
  - destruct T as [_ ->]. reflexivity.
  - destruct T as [_ ->]. reflexivity.
  - subst tr. unfold destroyed. destruct (socket_ c); reflexivity.
  - subst tr. reflexivity.
  - subst tr. reflexivity.
  - destruct T as (sock & quiet & session & _ & Hq & ->).
    rewrite flat_map_app.
    rewrite (flat_map_silent callbackOf quiet) by silent_side Hq.
    reflexivity.
  - destruct T as (sock & _ & ->). reflexivity.
Qed.

Lemma exec_sessions (depth : nat) (o : Op) (c c' : HTTPConnector)
    (tr : Trace) (cb : Callback) :
  between_calls c ->
  cb_ c = Some cb ->
  exec depth o c = Done tt c' tr ->
  flat_map createdSession tr = flat_map deliveredSession tr /\
  length (flat_map deliveredSession tr) =
  length (filter (fun r => match r with ReportedSuccess => true
                                       | ReportedError _ => false end)
                 (reportOf o)).
Proof.
  intros Hinv Hcb H. pose proof (exec_trace depth o c c' tr cb Hinv Hcb H) as T.
  destruct o; simpl in T |- *.
  - destruct T as [_ ->]. split; reflexivity.
  - destruct T as [_ ->]. split; reflexivity.
  - subst tr. unfold destroyed. destruct (socket_ c); split; reflexivity.
  - subst tr. split; reflexivity.
  - subst tr. split; reflexivity.
  - destruct T as (sock & quiet & session & _ & Hq & ->).
    rewrite !flat_map_app.
    rewrite (flat_map_silent createdSession quiet) by silent_side Hq.
    rewrite (flat_map_silent deliveredSession quiet) by silent_side Hq.
    split; reflexivity.
  - destruct T as (sock & _ & ->). split; reflexivity.
Qed.

Lemma countEvents_app (f : Event -> bool) (t1 t2 : Trace) :
  countEvents f (t1 ++ t2) = (countEvents f t1 + countEvents f t2)%nat.
Proof. unfold countEvents. rewrite filter_app, length_app. reflexivity. Qed.

Lemma countEvents_silent (f : Event -> bool) (l : Trace) :
  (forall e, silent e = true -> f e = false) ->
  forallb silent l = true ->
  countEvents f l = 0%nat.
Proof.
  intros Hf Hl. unfold countEvents. rewrite (filter_silent f l Hf Hl).
  reflexivity.
Qed.

Lemma exec_sockets (depth : nat) (o : Op) (c c' : HTTPConnector)
    (tr : Trace) (cb : Callback) :
  between_calls c ->
  cb_ c = Some cb ->
  exec depth o c = Done tt c' tr ->
  (ownedSockets c + countEvents isConnectStarted tr =
   countEvents isSocketDestroyed tr + countEvents isSessionCreated tr +
   ownedSockets c')%nat.
Proof.
  intros Hinv Hcb H. pose proof (exec_trace depth o c c' tr cb Hinv Hcb H) as T.
  destruct (exec_step depth o c c' tr Hinv H) as (_ & _ & Hb & _).
  unfold ownedSockets. rewrite Hb. unfold isBusy.
  destruct o; simpl in T |- *.
  - destruct T as [-> ->]. reflexivity.
  - destruct T as [-> ->]. reflexivity.
  - subst tr. unfold destroyed. destruct (socket_ c); reflexivity.
  - subst tr. destruct (socket_ c); reflexivity.
  - subst tr. destruct (socket_ c); reflexivity.
  - destruct T as (sock & quiet & session & -> & Hq & ->).
    rewrite !countEvents_app.
    rewrite !(countEvents_silent _ quiet) by silent_side Hq.
    reflexivity.
  - destruct T as (sock & -> & ->). reflexivity.
Qed.

(** X4: along a run the caller hears exactly what the transport reports,
    in the same order and on the callback given to the constructor: one
    success callback per reported success, one error callback with the
    reported exception per reported error, and nothing for [connect],
    [connectSSL], the setters or [reset]. *)
Theorem callbacks_mirror_transport_reports (depth : nat) (cb : Callback)
    (timeout : WheelTimerInstance) (c0 : HTTPConnector) (ops : list Op)
    (c : HTTPConnector) (tr : Trace) :
  HTTPConnector_new (Some cb) timeout = Some c0 ->
  run depth ops c0 = Done tt c tr ->
  flat_map callbackOf tr = map (pair cb) (flat_map reportOf ops).
Proof.
  intros Hnew Hrun.
  destruct (new_between_calls cb timeout c0 Hnew) as (Hinv0 & _ & Hcb0 & _).
  revert Hcb0.
  apply (run_compositional depth
           (fun c ops tr c' =>
              cb_ c = Some cb ->
              flat_map callbackOf tr = map (pair cb) (flat_map reportOf ops)))
    with (c' := c); auto.
  intros c1 o c2 t1 ops' t2 c3 Hinv He IH Hcb.
  destruct (exec_step depth o c1 c2 t1 Hinv He) as (_ & Hcb2 & _).
  rewrite flat_map_app, (exec_callbacks depth o c1 c2 t1 cb Hinv Hcb He).
  rewrite IH by congruence. simpl. rewrite map_app. reflexivity.
Qed.

(** X5: along a run every session that is built is handed to the success
    callback and no other session is: the sessions created and the
    sessions delivered are the same list, with one entry per success the
    transport reported. *)
Theorem sessions_created_are_delivered (depth : nat) (cb : Callback)
    (timeout : WheelTimerInstance) (c0 : HTTPConnector) (ops : list Op)
    (c : HTTPConnector) (tr : Trace) :
  HTTPConnector_new (Some cb) timeout = Some c0 ->
  run depth ops c0 = Done tt c tr ->
  flat_map createdSession tr = flat_map deliveredSession tr /\
  length (flat_map deliveredSession tr) =
  length (filter (fun r => match r with ReportedSuccess => true
                                       | ReportedError _ => false end)
                 (flat_map reportOf ops)).
Proof.
  intros Hnew Hrun.
  destruct (new_between_calls cb timeout c0 Hnew) as (Hinv0 & _ & Hcb0 & _).
  revert Hcb0.
  apply (run_compositional depth
           (fun c ops tr c' =>
              cb_ c = Some cb ->
              flat_map createdSession tr = flat_map deliveredSession tr /\
              length (flat_map deliveredSession tr) =
              length (filter (fun r => match r with
                                       | ReportedSuccess => true
                                       | ReportedError _ => false end)
                             (flat_map reportOf ops))))
    with (c' := c); auto.
  intros c1 o c2 t1 ops' t2 c3 Hinv He IH Hcb.
  destruct (exec_step depth o c1 c2 t1 Hinv He) as (_ & Hcb2 & _).
  destruct (exec_sessions depth o c1 c2 t1 cb Hinv Hcb He) as [E1 L1].
  destruct IH as [E2 L2]; [congruence|].
  rewrite !flat_map_app, E1, E2. split; [reflexivity|].
  simpl. rewrite filter_app, !length_app, L1, L2. reflexivity.
Qed.

Lemma run_sockets (depth : nat) (cb : Callback) (ops : list Op)
    (c c' : HTTPConnector) (tr : Trace) :
  between_calls c ->
  cb_ c = Some cb ->
  run depth ops c = Done tt c' tr ->
  (ownedSockets c + countEvents isConnectStarted tr =
   countEvents isSocketDestroyed tr + countEvents isSessionCreated tr +
   ownedSockets c')%nat.
Proof.
  intros Hinv Hcb Hrun. revert Hcb.
  apply (run_compositional depth
           (fun c ops tr c' =>
              cb_ c = Some cb ->
              (ownedSockets c + countEvents isConnectStarted tr =
               countEvents isSocketDestroyed tr +
               countEvents isSessionCreated tr + ownedSockets c')%nat))
    with (ops := ops); auto.
  intros c1 o c2 t1 ops' t2 c3 Hinv1 He IH Hcb.
  destruct (exec_step depth o c1 c2 t1 Hinv1 He) as (_ & Hcb2 & _).
  pose proof (exec_sockets depth o c1 c2 t1 cb Hinv1 Hcb He) as E.
  assert (IH' := IH (eq_trans Hcb2 Hcb)).
  rewrite !countEvents_app. lia.
Qed.

(** X6: no socket is lost along a run: the sockets on which a connect was
    started are, one for one, the sockets destroyed, the sockets moved into
    a session, and the one the connector still owns if it is busy. *)
Theorem sockets_are_accounted_for (depth : nat) (cb : Callback)
    (timeout : WheelTimerInstance) (c0 : HTTPConnector) (ops : list Op)
    (c : HTTPConnector) (tr : Trace) :
  HTTPConnector_new (Some cb) timeout = Some c0 ->
  run depth ops c0 = Done tt c tr ->
  countEvents isConnectStarted tr =
  (countEvents isSocketDestroyed tr + countEvents isSessionCreated tr +
   ownedSockets c)%nat.
Proof.
  intros Hnew Hrun.
  destruct (new_between_calls cb timeout c0 Hnew) as (Hinv0 & Hs0 & Hcb0 & _).
  pose proof (run_sockets depth cb ops c0 c tr Hinv0 Hcb0 Hrun) as H.
  unfold ownedSockets at 1 in H. unfold isBusy in H. rewrite Hs0 in H.
  exact H.
Qed.

(** X7: destroying the connector at the end of any run, busy or not,
    calls no callback, leaves no socket owned, and settles the account:
    every socket on which a connect was started has by then been destroyed
    or moved into a session. *)
Theorem destructor_after_run_is_silent_and_complete (depth : nat)
    (cb : Callback) (timeout : WheelTimerInstance) (c0 : HTTPConnector)
    (ops : list Op) (c : HTTPConnector) (tr : Trace) :
  (1 <= depth)%nat ->
  HTTPConnector_new (Some cb) timeout = Some c0 ->
  run depth ops c0 = Done tt c tr ->
  exists c' tr',
    destructor depth c = Done tt c' tr' /\
    socket_ c' = None /\
    flat_map callbackOf tr' = [] /\
    countEvents isConnectStarted (tr ++ tr') =
    (countEvents isSocketDestroyed (tr ++ tr') +
     countEvents isSessionCreated (tr ++ tr'))%nat.
Proof.
  intros Hd Hnew Hrun.
  destruct (new_between_calls cb timeout c0 Hnew) as (Hinv0 & Hs0 & Hcb0 & _).
  pose proof (run_sockets depth cb ops c0 c tr Hinv0 Hcb0 Hrun) as H.
  unfold ownedSockets, isBusy in H. rewrite Hs0 in H.
  exists (set_socket_ None c), (destroyed c).
  assert (E : destructor depth c = Done tt (set_socket_ None c) (destroyed c)).
  { unfold destructor. destruct (reset_outcome depth c) as [E | E]; [exact E|].
    unfold destroyed in *. destruct (socket_ c) as [sock|] eqn:Hs.
    - rewrite (reset_busy depth c sock Hd Hs) in E. discriminate.
    - rewrite (reset_idle depth c Hs) in E. discriminate. }
  split; [exact E|]. split; [reflexivity|].
  unfold destroyed. rewrite !countEvents_app.
  destruct (socket_ c); simpl in *; split; try reflexivity;
    unfold countEvents at 2 4 6; simpl; lia.
Qed.

(** ** Where a run can fail *)

Lemma run_app_eq (depth : nat) (pre post : list Op) (c : HTTPConnector) :
  run depth (pre ++ post) c =
  match run depth pre c with
  | Done _ c1 t1 =>
    match run depth post c1 with
    | Done _ c2 t2 => Done tt c2 (t1 ++ t2)
    | Failed f => Failed f
    end
  | Failed f => Failed f
  end.
Proof.
  revert c. induction pre as [|o pre IH]; intros c.
  - simpl. unfold ret. destruct (run depth post c) as [[] c2 t2|f]; reflexivity.
  - simpl. unfold bind.
    destruct (exec depth o c) as [[] c1 t1|f]; [|reflexivity].
    rewrite IH.
    destruct (run depth pre c1) as [[] c2 t2|f]; [|reflexivity].
    destruct (run depth post c2) as [[] c3 t3|f]; [|reflexivity].
    rewrite app_assoc. reflexivity.
Qed.

Lemma run_app (depth : nat) (pre post : list Op)
    (c c' : HTTPConnector) (tr : Trace) :
  run depth (pre ++ post) c = Done tt c' tr ->
  exists c1 t1 t2,
    run depth pre c = Done tt c1 t1 /\
    run depth post c1 = Done tt c' t2 /\
    tr = t1 ++ t2.
Proof.
  rewrite run_app_eq.
  destruct (run depth pre c) as [[] c1 t1|f]; [|discriminate].
  destruct (run depth post c1) as [[] c2 t2|f] eqn:Hp; [|discriminate].
  intros H. apply Done_inj in H. destruct H as (_ & <- & <-).
  exists c1, t1, t2. auto.
Qed.

Lemma run_failure_point (depth : nat) (ops : list Op) (c : HTTPConnector)
    (f : Fault) :
  run depth ops c = Failed f ->
  exists pre o rest c1 t1,
    ops = pre ++ o :: rest /\
    run depth pre c = Done tt c1 t1 /\
    exec depth o c1 = Failed f.
Proof.
  revert c. induction ops as [|o ops IH]; intros c H; [discriminate|].
  simpl in H. unfold bind in H.
  destruct (exec depth o c) as [[] c1 t1|g] eqn:He.
  - destruct (run depth ops c1) as [[] c2 t2|g] eqn:Hr; [discriminate|].
    injection H as ->.
    destruct (IH c1 Hr) as (pre & o' & rest & c2 & t2 & -> & Hpre & Hf).
    exists (o :: pre), o', rest, c2, (t1 ++ t2).
    split; [reflexivity|]. split; [|exact Hf].
    simpl. unfold bind. rewrite He, Hpre. reflexivity.
  - injection H as ->.
    exists [], o, ops, c, []. auto.
Qed.

Lemma exec_failure_cause (depth : nat) (o : Op) (c : HTTPConnector)
    (f : Fault) :
  (1 <= depth)%nat ->
  between_calls c ->
  exec depth o c = Failed f ->
  (startsAttempt o = true /\ isBusy c = true /\ f = CheckFailed) \/
  (reportOf o <> [] /\ isBusy c = false /\ f = NoPendingConnect).
Proof.
  intros Hd [Hcb Hpend]. unfold isBusy.
  destruct o as [now eb r | now eb ctx sess name r | | p | b
                 | h acceptNow sslNow | ex]; cbn [exec].
  - destruct (socket_ c) as [sock|] eqn:Hs.
    + rewrite connect_busy by (unfold isBusy; rewrite Hs; reflexivity).
      intros H; injection H as <-; auto.
    + rewrite (connect_idle _ _ _ _ _ Hs). discriminate.
  - destruct (socket_ c) as [sock|] eqn:Hs.
    + rewrite connectSSL_busy by (unfold isBusy; rewrite Hs; reflexivity).
      intros H; injection H as <-; auto.
    + rewrite (connectSSL_idle _ _ _ _ _ _ _ _ Hs). discriminate.
  - destruct (socket_ c) as [sock|] eqn:Hs.
    + rewrite (reset_busy depth c sock Hd Hs). discriminate.
    + rewrite (reset_idle depth c Hs). discriminate.
  - unfold setPlaintextProtocol, modify. discriminate.
  - unfold setHTTPVersionOverride, modify. discriminate.
  - destruct (socket_ c) as [sock|] eqn:Hs.
    + destruct (cb_ c) as [cb|] eqn:Hc; [|congruence].
      rewrite (transport_connectSuccess_pending h acceptNow sslNow c sock cb
                 Hs (Hpend sock eq_refl) Hc). discriminate.
    + unfold transport_connectSuccess. unfold_monad. rewrite Hs.
      intros H; injection H as <-. right.
      split; [discriminate | auto].
  - destruct (socket_ c) as [sock|] eqn:Hs.
    + rewrite (transport_connectErr_pending depth ex c sock Hs
                 (Hpend sock eq_refl)). discriminate.
    + unfold transport_connectErr. unfold_monad. rewrite Hs.
      intros H; injection H as <-. right.
      split; [discriminate | auto].
Qed.

(** X8: with room for the one nested call, a run on a constructed
    connector can stop in two ways only, both misuse: [connect] or
    [connectSSL] called while a socket is owned, which fails the
    [DCHECK(!isBusy())], or a report from the transport while no connect is
    pending.  It never dereferences a null [socket_] and never needs a
    second nested call. *)
Theorem run_fails_only_on_misuse (depth : nat) (cb : Callback)
    (timeout : WheelTimerInstance) (c0 : HTTPConnector) (ops : list Op)
    (f : Fault) :
  (1 <= depth)%nat ->
  HTTPConnector_new (Some cb) timeout = Some c0 ->
  run depth ops c0 = Failed f ->
  exists pre o rest c1 t1,
    ops = pre ++ o :: rest /\
    run depth pre c0 = Done tt c1 t1 /\
    ((startsAttempt o = true /\ isBusy c1 = true /\ f = CheckFailed) \/
     (reportOf o <> [] /\ isBusy c1 = false /\ f = NoPendingConnect)).
Proof.
  intros Hd Hnew Hrun.
  destruct (new_between_calls cb timeout c0 Hnew) as (Hinv0 & _).
  destruct (run_failure_point depth ops c0 f Hrun)
    as (pre & o & rest & c1 & t1 & -> & Hpre & Hf).
  exists pre, o, rest, c1, t1. split; [reflexivity|]. split; [exact Hpre|].
  destruct (run_steps depth pre c0 c1 t1 Hinv0 Hpre) as (Hinv1 & _).
  exact (exec_failure_cause depth o c1 f Hd Hinv1 Hf).
Qed.

(** X9: while an attempt is in flight a further [connect] or [connectSSL]
    is rejected: after an operation that starts an attempt, followed by
    setters only, either of them fails the [DCHECK(!isBusy())], and so does
    every run that continues with it. *)
Theorem connect_while_busy_is_rejected (depth : nat) (cb : Callback)
    (timeout : WheelTimerInstance) (c0 : HTTPConnector)
    (pre mid rest : list Op) (o1 o2 : Op) (c : HTTPConnector) (tr : Trace) :
  HTTPConnector_new (Some cb) timeout = Some c0 ->
  startsAttempt o1 = true ->
  forallb isSetter mid = true ->
  startsAttempt o2 = true ->
  run depth (pre ++ o1 :: mid) c0 = Done tt c tr ->
  exec depth o2 c = Failed CheckFailed /\
  run depth ((pre ++ o1 :: mid) ++ o2 :: rest) c0 = Failed CheckFailed.
Proof.
  intros Hnew H1 Hm H2 Hrun.
  destruct (new_between_calls cb timeout c0 Hnew) as (Hinv0 & _).
  destruct (run_steps depth _ c0 c tr Hinv0 Hrun) as (_ & _ & Hb & _).
  rewrite (fold_busy_after_attempt pre mid o1 _ H1 Hm) in Hb.
  assert (E : exec depth o2 c = Failed CheckFailed).
  { destruct o2; try discriminate H2; cbn [exec].
    - apply connect_busy. exact Hb.
    - apply connectSSL_busy. exact Hb. }
  split; [exact E|].
  rewrite run_app_eq, Hrun. simpl. unfold bind. rewrite E. reflexivity.
Qed.

(** ** What the caller receives *)

Lemma exec_settings (depth : nat) (o : Op) (c c' : HTTPConnector)
    (tr : Trace) :
  between_calls c ->
  exec depth o c = Done tt c' tr ->
  timeout_ c' = timeout_ c /\
  plaintextProtocol_ c' = hintAfter (plaintextProtocol_ c) o /\
  forceHTTP1xCodecTo1_1_ c' = overrideAfter (forceHTTP1xCodecTo1_1_ c) o.
Proof.
  intros [Hcb Hpend] H.
  destruct o as [now eb r | now eb ctx sess name r | | p | b
                 | h acceptNow sslNow | ex]; cbn [exec] in H.
  - destruct (socket_ c) as [sock|] eqn:Hs.
    + rewrite connect_busy in H by (unfold isBusy; rewrite Hs; reflexivity).
      discriminate.
    + rewrite (connect_idle depth now eb r c Hs) in H.
      apply Done_inj in H. destruct H as (_ & <- & _). auto.
  - destruct (socket_ c) as [sock|] eqn:Hs.
    + rewrite connectSSL_busy in H by (unfold isBusy; rewrite Hs; reflexivity).
      discriminate.
    + rewrite (connectSSL_idle depth now eb ctx sess name r c Hs) in H.
      apply Done_inj in H. destruct H as (_ & <- & _). auto.
  - destruct (reset_outcome depth c) as [E | E]; rewrite E in H;
      [|discriminate].
    apply Done_inj in H. destruct H as (_ & <- & _). destruct c; auto.
  - unfold setPlaintextProtocol, modify in H.
    apply Done_inj in H. destruct H as (_ & <- & _). destruct c; auto.
  - unfold setHTTPVersionOverride, modify in H.
    apply Done_inj in H. destruct H as (_ & <- & _). destruct c; auto.
  - destruct (socket_ c) as [sock|] eqn:Hs.
    + destruct (cb_ c) as [cb|] eqn:Hc; [|congruence].
      rewrite (transport_connectSuccess_pending h acceptNow sslNow c sock cb
                 Hs (Hpend sock eq_refl) Hc) in H.
      apply Done_inj in H. destruct H as (_ & <- & _). destruct c; auto.
    + unfold transport_connectSuccess in H. unfold_monad_in H.
      rewrite Hs in H. discriminate.
  - destruct (socket_ c) as [sock|] eqn:Hs.
    + rewrite (transport_connectErr_pending depth ex c sock Hs
                 (Hpend sock eq_refl)) in H.
      apply Done_inj in H. destruct H as (_ & <- & _). destruct c; auto.
    + unfold transport_connectErr in H. unfold_monad_in H.
      rewrite Hs in H. discriminate.
Qed.

Lemma run_settings (depth : nat) (ops : list Op) (c c' : HTTPConnector)
    (tr : Trace) :
  between_calls c ->
  run depth ops c = Done tt c' tr ->
  timeout_ c' = timeout_ c /\
  plaintextProtocol_ c' = fold_left hintAfter ops (plaintextProtocol_ c) /\
  forceHTTP1xCodecTo1_1_ c' =
  fold_left overrideAfter ops (forceHTTP1xCodecTo1_1_ c).
Proof.
  apply (run_compositional depth
           (fun c ops tr c' =>
              timeout_ c' = timeout_ c /\
              plaintextProtocol_ c' =
              fold_left hintAfter ops (plaintextProtocol_ c) /\
              forceHTTP1xCodecTo1_1_ c' =
              fold_left overrideAfter ops (forceHTTP1xCodecTo1_1_ c))).
  - auto.
  - intros c1 o c2 t1 ops' t2 c3 Hinv He (Ht & Hp & Hf).
    destruct (exec_settings depth o c1 c2 t1 Hinv He) as (Ht1 & Hp1 & Hf1).
    simpl. rewrite <- Hp1, <- Hf1. split; [congruence|]. split; assumption.
Qed.

Lemma run_setters_keep (depth : nat) (mid : list Op) (c c' : HTTPConnector)
    (tr : Trace) :
  forallb isSetter mid = true ->
  run depth mid c = Done tt c' tr ->
  socket_ c' = socket_ c /\
  transportInfo_ c' = transportInfo_ c /\
  connectStart_ c' = connectStart_ c /\
  tr = [].
Proof.
  revert c tr. induction mid as [|o mid IH]; intros c tr Hm H.
  - simpl in H. apply Done_inj in H. destruct H as (_ & <- & <-). auto.
  - simpl in Hm. apply andb_true_iff in Hm. destruct Hm as [Ho Hm].
    apply run_cons in H. destruct H as (c1 & t1 & t2 & He & Hr & ->).
    destruct (IH c1 t2 Hm Hr) as (Hs & Hi & Ht & ->).
    destruct o; try discriminate Ho; cbn [exec] in He.
    + unfold setPlaintextProtocol, modify in He.
      apply Done_inj in He. destruct He as (_ & <- & <-).
      destruct c; simpl in *. auto.
    + unfold setHTTPVersionOverride, modify in He.
      apply Done_inj in He. destruct He as (_ & <- & <-).
      destruct c; simpl in *. auto.
Qed.

(** The connector as an attempt leaves it for the transport's report. *)
Lemma run_attempt_state (depth : nat) (cb : Callback)
    (timeout : WheelTimerInstance) (c0 : HTTPConnector)
    (pre mid : list Op) (o : Op) (c : HTTPConnector) (tr : Trace)
    (sock : AsyncSocket) (now : TimePoint) :
  HTTPConnector_new (Some cb) timeout = Some c0 ->
  forallb isSetter mid = true ->
  (forall c1 c2 t, exec depth o c1 = Done tt c2 t ->
                   c2 = started (isSSL sock) now sock c1) ->
  run depth (pre ++ o :: mid) c0 = Done tt c tr ->
  c = mkConnector (Some cb) timeout (Some sock)
                  (set_secure (isSSL sock) TransportInfo_default) now
                  (hintOf (pre ++ o :: mid)) (overrideOf (pre ++ o :: mid)).
Proof.
  intros Hnew Hm Ho Hrun.
  destruct (new_between_calls cb timeout c0 Hnew) as (Hinv0 & _ & Hcb0 & _).
  destruct (run_steps depth _ c0 c tr Hinv0 Hrun) as (_ & Hcb & _).
  destruct (run_settings depth _ c0 c tr Hinv0 Hrun) as (Ht & Hp & Hf).
  apply run_app in Hrun. destruct Hrun as (c1 & t1 & t2 & _ & Hpost & _).
  apply run_cons in Hpost. destruct Hpost as (c2 & u1 & u2 & He & Hr & _).
  destruct (run_setters_keep depth mid c2 c u2 Hm Hr) as (Hs & Hi & Hst & _).
  rewrite (Ho c1 c2 u1 He) in Hs, Hi, Hst. simpl in Hs, Hi, Hst.
  simpl in Hnew. injection Hnew as <-. simpl in *.
  unfold hintOf, overrideOf.
  destruct c; simpl in *. congruence.
Qed.

Lemma exec_connect_started (depth : nat) (now : TimePoint) (eb : EventBase)
    (r : ConnectRequest) (c1 c2 : HTTPConnector) (t : Trace) :
  exec depth (OpConnect now eb r) c1 = Done tt c2 t ->
  c2 = started (isSSL (plainSocket eb r)) now (plainSocket eb r) c1.
Proof.
  cbn [exec]. destruct (socket_ c1) as [sock|] eqn:Hs.
  - rewrite connect_busy by (unfold isBusy; rewrite Hs; reflexivity).
    discriminate.
  - rewrite (connect_idle depth now eb r c1 Hs).
    intros H. apply Done_inj in H. destruct H as (_ & <- & _). reflexivity.
Qed.


Lemma success_after_attempt (depth : nat) (cb : Callback)
    (timeout : WheelTimerInstance) (c0 : HTTPConnector)
    (pre mid : list Op) (o : Op) (sock : AsyncSocket) (now : TimePoint)
    (h : Handshake) (acceptNow sslNow : TimePoint)
    (c : HTTPConnector) (tr : Trace) :
  HTTPConnector_new (Some cb) timeout = Some c0 ->
  forallb isSetter mid = true ->
  (forall c1 c2 t, exec depth o c1 = Done tt c2 t ->
                   c2 = started (isSSL sock) now sock c1) ->
  connectCallback_ sock = true ->
  run depth ((pre ++ o :: mid) ++ [TransportSuccess h acceptNow sslNow]) c0 =
    Done tt c tr ->
  let sock1 := AsyncSocket_complete h sock in
  let c1 := mkConnector (Some cb) timeout (Some sock1)
                        (set_secure (isSSL sock) TransportInfo_default) now
                        (hintOf (pre ++ o :: mid))
                        (overrideOf (pre ++ o :: mid)) in
  isBusy c = false /\
  exists before,
    tr = before ++
         [SessionCreated (successSession acceptNow sslNow c1 sock1);
          CallbackConnectSuccess cb (successSession acceptNow sslNow c1 sock1)].
Proof.
  intros Hnew Hm Ho Hp Hrun sock1 c1.
  apply run_app in Hrun. destruct Hrun as (c2 & t1 & t2 & Hpre & Hlast & ->).
  pose proof (run_attempt_state depth cb timeout c0 pre mid o c2 t1
                sock now Hnew Hm Ho Hpre) as Hc2.
  apply run_cons in Hlast. destruct Hlast as (c3 & u1 & u2 & He & Hr & ->).
  simpl in Hr. apply Done_inj in Hr. destruct Hr as (_ & <- & <-).
  cbn [exec] in He.
  rewrite (transport_connectSuccess_pending h acceptNow sslNow c2 sock cb)
    in He by (try rewrite Hc2; auto).
  apply Done_inj in He. destruct He as (_ & <- & <-).
  split; [reflexivity|].
  eexists. rewrite app_nil_r, !app_assoc.
  rewrite Hc2. reflexivity.
Qed.



Lemma hintOf_unset (ops : list Op) (p : string) :
  forallb (fun o => negb (setsHint o)) ops = true ->
  fold_left hintAfter ops p = p.
Proof.
  revert p. induction ops as [|o ops IH]; intros p H; [reflexivity|].
  simpl in H. apply andb_true_iff in H. destruct H as [Ho Hr].
  simpl. rewrite (IH _ Hr). destruct o; try reflexivity; discriminate Ho.
Qed.

(** X12: the default.  If the empty name is neither a SPDY token nor an
    HTTP/2 identifier, a plaintext attempt on a connector whose plaintext
    protocol was never set delivers a session with the HTTP/1.x codec,
    carrying the version override as last set (off if never set), and
    with [secure = false]. *)
Theorem unhinted_plaintext_attempt_yields_http1x (depth : nat) (cb : Callback)
    (timeout : WheelTimerInstance) (c0 : HTTPConnector)
    (pre mid : list Op) (now : TimePoint) (eb : EventBase)
    (r : ConnectRequest) (h : Handshake) (acceptNow sslNow : TimePoint)
    (c : HTTPConnector) (tr : Trace) :
  SPDYCodec_getVersion EmptyString = None ->
  ~ HTTP2Identifier EmptyString ->
  HTTPConnector_new (Some cb) timeout = Some c0 ->
  forallb isSetter mid = true ->
  forallb (fun o => negb (setsHint o)) (pre ++ OpConnect now eb r :: mid)
    = true ->
  run depth ((pre ++ OpConnect now eb r :: mid) ++
             [TransportSuccess h acceptNow sslNow]) c0 = Done tt c tr ->
  exists session,
    In (CallbackConnectSuccess cb session) tr /\
    sessCodec session =
      HTTP1xCodec UPSTREAM (overrideOf (pre ++ OpConnect now eb r :: mid)) /\
    secure (sessTransportInfo session) = false.
Proof.
  intros Hv Hh2 Hnew Hm Hunset Hrun.
  destruct (success_after_attempt depth cb timeout c0 pre mid _
              (plainSocket eb r) now h acceptNow sslNow c tr Hnew Hm
              (exec_connect_started depth now eb r) eq_refl Hrun)
    as [_ [before Htr]].
  eexists. split; [|split].
  - rewrite Htr. apply in_or_app. right. simpl. right. left. reflexivity.
  - unfold successSession, chosenProtocol. simpl.
    unfold hintOf. rewrite (hintOf_unset _ _ Hunset).
    rewrite (makeCodec_no_spdy _ _ Hv).
    apply isHTTP2Identifier_false in Hh2. rewrite Hh2. reflexivity.
  - reflexivity.
Qed.



End Properties.

(** * The model at work on the sample collaborators *)

Lemma sample_not_HTTP2Identifier (p : string) :
  isHTTP2Identifier (env:=sampleEnv) p = false ->
  ~ HTTP2Identifier (env:=sampleEnv) p.
Proof. intros H. apply isHTTP2Identifier_false. exact H. Defined.

Lemma makeCodec_spdy_iff_version_token_witness :
  fst (makeCodec (env:=sampleEnv) "spdy/3.1" true) = @SPDYCodec sampleEnv UPSTREAM SPDY3_1 /\
  makeCodec (env:=sampleEnv) "spdy/3" false = (@SPDYCodec sampleEnv UPSTREAM SPDY3, []) /\
  ~ (exists dir v, fst (makeCodec (env:=sampleEnv) "h2" true) = SPDYCodec dir v).
Proof.
  pose proof (makeCodec_spdy_iff_version_token (env:=sampleEnv) "spdy/3.1" true)
    as (H1 & _ & _).
  pose proof (makeCodec_spdy_iff_version_token (env:=sampleEnv) "spdy/3" false)
    as (_ & _ & H2).
  pose proof (makeCodec_spdy_iff_version_token (env:=sampleEnv) "h2" true)
    as (_ & H3 & _).
  split; [|split].
  - apply H1. split; reflexivity.
  - apply H2. reflexivity.
  - intros H. apply H3 in H. apply H. reflexivity.
Defined.

Lemma makeCodec_http2_or_http1x_witness :
  @SPDYCodec_getVersion sampleEnv "h2c" = None /\
  makeCodec (env:=sampleEnv) "h2c" false = (HTTP2Codec UPSTREAM, []) /\
  @SPDYCodec_getVersion sampleEnv EmptyString = None /\
  makeCodec (env:=sampleEnv) EmptyString true = (HTTP1xCodec UPSTREAM true, []).
Proof.
  split; [reflexivity|]. split.
  - apply (makeCodec_http2_or_http1x (env:=sampleEnv) "h2c" false eq_refl).
    right. left. reflexivity.
  - split; [reflexivity|].
    apply (makeCodec_http2_or_http1x (env:=sampleEnv) EmptyString true eq_refl).
    + apply sample_not_HTTP2Identifier. reflexivity.
    + reflexivity.
Defined.

Lemma unrecognized_protocol_falls_back_to_http1x_witness :
  "foo" <> EmptyString /\
  @SPDYCodec_getVersion sampleEnv "foo" = None /\
  ~ HTTP2Identifier (env:=sampleEnv) "foo" /\
  @HTTP1xCodec_supportsNextProtocol sampleEnv "foo" = false /\
  makeCodec (env:=sampleEnv) "foo" false =
    (HTTP1xCodec UPSTREAM false, [LogError (unimplementedMessage "foo")]) /\
  exists c' tr session,
    connectSuccess (env:=sampleEnv) 9 10 (sampleSecured "foo") = Done tt c' tr /\
    In (CallbackConnectSuccess 1%nat session) tr /\
    sessCodec session = HTTP1xCodec UPSTREAM false /\
    (forall cb' ex, ~ In (CallbackConnectError cb' ex) tr).
Proof.
  assert (Hne : "foo" <> EmptyString) by discriminate.
  assert (Hh2 : ~ HTTP2Identifier (env:=sampleEnv) "foo")
    by (apply sample_not_HTTP2Identifier; reflexivity).
  pose proof (unrecognized_protocol_falls_back_to_http1x (env:=sampleEnv)
                "foo" false Hne eq_refl Hh2 eq_refl) as [Hmk Hsess].
  split; [exact Hne|]. split; [reflexivity|]. split; [exact Hh2|].
  split; [reflexivity|]. split; [exact Hmk|].
  destruct (Hsess 9 10 (sampleSecured "foo") 1%nat (sampleSecureSocket "foo")
              eq_refl eq_refl eq_refl eq_refl)
    as (c' & tr & session & Hrun & _ & _ & Hin & Hcodec & _ & Hnoerr).
  exists c', tr, session. auto.
Defined.

Lemma reset_suppresses_error_callback_witness :
  (1 <= 1)%nat /\
  socket_ sampleConnecting = Some sampleSocket /\
  exists c' tr,
    reset (env:=sampleEnv) 1 sampleConnecting = Done tt c' tr /\
    noCallback tr /\
    isBusy c' = false /\
    cb_ c' = Some 1%nat /\
    socket_reset (env:=sampleEnv) 1 None sampleConnecting =
      Done tt (set_socket_ None sampleConnecting)
           [SocketDestroyed sampleSocket;
            CallbackConnectError 1%nat socketClosedLocallyEx].
Proof.
  split; [lia|]. split; [reflexivity|].
  destruct (reset_suppresses_error_callback (env:=sampleEnv) 1 sampleConnecting
              sampleSocket (le_n 1) eq_refl)
    as (c' & tr & Hrun & Hno & _ & _ & Hidle & Hcb & Hwould & _).
  exists c', tr. split; [exact Hrun|]. split; [exact Hno|].
  split; [exact Hidle|]. split; [exact Hcb|].
  apply Hwould; reflexivity.
Defined.

Lemma connectErr_discards_and_notifies_once_witness :
  callback_released sampleReporting /\
  exists c',
    connectErr (env:=sampleEnv) 1 sampleError sampleReporting =
      Done tt c'
           [SocketDestroyed (AsyncSocket_fail sampleSocket);
            CallbackConnectError 1%nat sampleError] /\
    isBusy c' = false.
Proof.
  assert (Hrel : callback_released sampleReporting) by reflexivity.
  split; [exact Hrel|].
  destruct (connectErr_discards_and_notifies_once (env:=sampleEnv) 1
              sampleError sampleReporting Hrel)
    as (c' & tr & Hrun & _ & _ & Hidle & Htr & _).
  exists c'. split; [|exact Hidle].
  rewrite Hrun, Htr. reflexivity.
Defined.

Lemma connectSuccess_detached_noop_witness :
  cb_ (set_cb_ None sampleConnecting) = None /\
  connectSuccess (env:=sampleEnv) 9 10 (set_cb_ None sampleConnecting) =
    Done tt (set_cb_ None sampleConnecting) [].
Proof.
  split; [reflexivity|].
  apply (connectSuccess_detached_noop (env:=sampleEnv)). reflexivity.
Defined.

Lemma reset_idempotent_and_noop_when_idle_witness :
  (1 <= 1)%nat /\
  reset (env:=sampleEnv) 1 sampleIdle = Done tt sampleIdle [] /\
  destructor (env:=sampleEnv) 1 sampleIdle = Done tt sampleIdle [] /\
  exists c' tr,
    reset (env:=sampleEnv) 1 sampleConnecting = Done tt c' tr /\
    cb_ c' = cb_ sampleConnecting /\
    reset (env:=sampleEnv) 1 c' = Done tt c' [].
Proof.
  split; [lia|].
  pose proof (reset_idempotent_and_noop_when_idle (env:=sampleEnv) 1
                sampleIdle (le_n 1)) as (Hidle & _ & Hdtor).
  split; [apply Hidle; reflexivity|]. split; [apply Hdtor; reflexivity|].
  destruct (reset_idempotent_and_noop_when_idle (env:=sampleEnv) 1
              sampleConnecting (le_n 1))
    as (_ & (c' & tr & Hrun & Hcb & _ & Hagain) & _).
  exists c', tr. auto.
Defined.

Lemma isBusy_from_connect_to_terminal_callback_witness :
  HTTPConnector_new (Some 1%nat) 0%nat = Some sampleIdle /\
  (exists c tr,
     run (env:=sampleEnv) 1
         [OpConnect 5 0%nat sampleRequest; OpSetPlaintextProtocol "h2"]
         sampleIdle = Done tt c tr /\
     isBusy c = true) /\
  (exists c tr,
     exec (env:=sampleEnv) 1 (TransportSuccess (sampleHandshake "h2") 9 10)
          sampleConnecting = Done tt c tr /\
     isBusy c = false) /\
  (exists c tr,
     exec (env:=sampleEnv) 1 (TransportError sampleError)
          sampleConnecting = Done tt c tr /\
     isBusy c = false).
Proof.
  assert (Hnew : HTTPConnector_new (Some 1%nat) 0%nat = Some sampleIdle)
    by reflexivity.
  pose proof (isBusy_from_connect_to_terminal_callback (env:=sampleEnv) 1
                1%nat 0%nat sampleIdle Hnew) as (Hbusy & Hok & Herr).
  assert (Hpre : run (env:=sampleEnv) 1 [OpConnect 5 0%nat sampleRequest]
                     sampleIdle =
                 Done tt sampleConnecting [ConnectStarted sampleSocket])
    by reflexivity.
  split; [exact Hnew|]. split; [|split].
  - do 2 eexists. split; [reflexivity|].
    exact (proj1 (Hbusy [] (OpConnect 5 0%nat sampleRequest)
                        [OpSetPlaintextProtocol "h2"] _ _
                        eq_refl eq_refl eq_refl)).
  - do 2 eexists. split; [reflexivity|].
    exact (proj1 (Hok [OpConnect 5 0%nat sampleRequest]
                      (sampleHandshake "h2") 9 10 _ _ _ _ Hpre eq_refl)).
  - do 2 eexists. split; [reflexivity|].
    exact (proj1 (Herr [OpConnect 5 0%nat sampleRequest] sampleError
                       _ _ _ _ Hpre eq_refl)).
Defined.

Lemma timeElapsed_zero_then_since_connect_start_witness :
  @timePointInitialized sampleEnv TimePoint_default = false /\
  HTTPConnector_new (Some 1%nat) 0%nat = Some sampleIdle /\
  timeElapsed (env:=sampleEnv) 12 sampleIdle = 0 /\
  @timePointInitialized sampleEnv 5 = true /\
  timeElapsed (env:=sampleEnv) 12 sampleConnecting = 7.
Proof.
  assert (Hnew : HTTPConnector_new (Some 1%nat) 0%nat = Some sampleIdle)
    by reflexivity.
  pose proof (timeElapsed_zero_then_since_connect_start (env:=sampleEnv) 1
                1%nat 0%nat sampleIdle eq_refl Hnew) as (Hzero & _ & Hsince).
  split; [reflexivity|]. split; [exact Hnew|]. split; [apply Hzero|].
  split; [reflexivity|].
  apply (Hsince [] (OpConnect 5 0%nat sampleRequest) 5 sampleIdle []
                sampleConnecting [ConnectStarted sampleSocket] 12);
    reflexivity.
Defined.

(** C9, as stated, fails: a connect started at clock reading 5 fails at
    once; the connector is idle again, the recorded start is still 5, and
    [timeElapsed] asked while the clock still reads 5 returns zero. *)
Lemma timeElapsed_zero_after_terminated_attempt :
  exists c tr,
    HTTPConnector_new (Some 1%nat) 0%nat = Some sampleIdle /\
    run (env:=sampleEnv) 1
        [OpConnect 5 0%nat sampleRequest; TransportError sampleError]
        sampleIdle = Done tt c tr /\
    @timePointInitialized sampleEnv 5 = true /\
    isBusy c = false /\
    connectStart_ c = 5 /\
    timeElapsed (env:=sampleEnv) 5 c = 0.
Proof.
  do 2 eexists. split; [reflexivity|]. split; [reflexivity|].
  split; [reflexivity|]. split; [reflexivity|]. split; reflexivity.
Qed.

Lemma connectStart_survives_termination_witness :
  HTTPConnector_new (Some 1%nat) 0%nat = Some sampleIdle /\
  connectTime (OpConnect 5 0%nat sampleRequest) = Some 5 /\
  @timePointInitialized sampleEnv 5 = true /\
  noAttempt [TransportError sampleError; OpReset] /\
  exists c tr,
    run (env:=sampleEnv) 1
        [OpConnect 5 0%nat sampleRequest; TransportError sampleError; OpReset]
        sampleIdle = Done tt c tr /\
    isBusy c = false /\
    connectStart_ c = 5 /\
    timeElapsed (env:=sampleEnv) 12 c = 7.
Proof.
  split; [reflexivity|]. split; [reflexivity|]. split; [reflexivity|].
  split; [reflexivity|].
  do 2 eexists. split; [reflexivity|]. split; [reflexivity|].
  pose proof (connectStart_survives_termination (env:=sampleEnv) 1 1%nat 0%nat
                sampleIdle [] [TransportError sampleError; OpReset]
                (OpConnect 5 0%nat sampleRequest) 5 12 _ _
                eq_refl eq_refl eq_refl eq_refl eq_refl) as (Hst & He & _).
  split; [exact Hst | exact He].
Defined.

(** ** The further properties on the sample collaborators *)

Lemma makeCodec_logs_iff_unimplemented_witness :
  unimplemented (env:=sampleEnv) "foo" /\
  snd (makeCodec (env:=sampleEnv) "foo" true) =
    [LogError (unimplementedMessage "foo")] /\
  ~ unimplemented (env:=sampleEnv) "http/1.1" /\
  snd (makeCodec (env:=sampleEnv) "http/1.1" true) = [].
Proof.
  assert (Hfoo : unimplemented (env:=sampleEnv) "foo").
  { split; [reflexivity|]. split.
    - apply sample_not_HTTP2Identifier. reflexivity.
    - split; [discriminate | reflexivity]. }
  assert (Hhttp : ~ unimplemented (env:=sampleEnv) "http/1.1").
  { intros (_ & _ & _ & H). discriminate H. }
  split; [exact Hfoo|].
  split; [exact (proj1 (makeCodec_logs_iff_unimplemented (env:=sampleEnv)
                          "foo" true) Hfoo)|].
  split; [exact Hhttp|].
  exact (proj2 (makeCodec_logs_iff_unimplemented (env:=sampleEnv)
                  "http/1.1" true) Hhttp).
Defined.

Lemma timeElapsed_monotone_witness :
  7 <= 12 /\
  timeElapsed (env:=sampleEnv) 7 sampleConnecting <=
  timeElapsed (env:=sampleEnv) 12 sampleConnecting /\
  (connectStart_ sampleConnecting <= 7 ->
   0 <= timeElapsed (env:=sampleEnv) 7 sampleConnecting).
Proof.
  assert (H : 7 <= 12) by lia.
  split; [exact H|].
  exact (timeElapsed_monotone (env:=sampleEnv) 7 12 sampleConnecting H).
Defined.

Ltac run_result Hrun c tr :=
  match goal with
  | |- context [run ?d ?ops ?c0] =>
    destruct (run d ops c0) as [[] c tr | ?] eqn:Hrun;
    [| exfalso; vm_compute in Hrun; discriminate Hrun]
  end.

Lemma callbacks_mirror_transport_reports_witness :
  HTTPConnector_new (Some 1%nat) 0%nat = Some sampleIdle /\
  exists c tr,
    run (env:=sampleEnv) 1 sampleRun sampleIdle = Done tt c tr /\
    flat_map callbackOf tr =
      [(1%nat, ReportedSuccess); (1%nat, ReportedError sampleError)].
Proof.
  split; [reflexivity|]. run_result Hrun c tr.
  exists c, tr. split; [reflexivity|].
  exact (callbacks_mirror_transport_reports (env:=sampleEnv) 1 1%nat 0%nat
           sampleIdle sampleRun c tr eq_refl Hrun).
Defined.

Lemma sessions_created_are_delivered_witness :
  HTTPConnector_new (Some 1%nat) 0%nat = Some sampleIdle /\
  exists c tr,
    run (env:=sampleEnv) 1 sampleRun sampleIdle = Done tt c tr /\
    flat_map createdSession tr = flat_map deliveredSession tr /\
    length (flat_map deliveredSession tr) = 1%nat.
Proof.
  split; [reflexivity|]. run_result Hrun c tr.
  exists c, tr. split; [reflexivity|].
  exact (sessions_created_are_delivered (env:=sampleEnv) 1 1%nat 0%nat
           sampleIdle sampleRun c tr eq_refl Hrun).
Defined.

Lemma sockets_are_accounted_for_witness :
  HTTPConnector_new (Some 1%nat) 0%nat = Some sampleIdle /\
  exists c tr,
    run (env:=sampleEnv) 1 sampleRun sampleIdle = Done tt c tr /\
    countEvents isConnectStarted tr =
    (countEvents isSocketDestroyed tr + countEvents isSessionCreated tr +
     ownedSockets c)%nat.
Proof.
  split; [reflexivity|]. run_result Hrun c tr.
  exists c, tr. split; [reflexivity|].
  exact (sockets_are_accounted_for (env:=sampleEnv) 1 1%nat 0%nat
           sampleIdle sampleRun c tr eq_refl Hrun).
Defined.

Lemma destructor_after_run_is_silent_and_complete_witness :
  (1 <= 1)%nat /\
  HTTPConnector_new (Some 1%nat) 0%nat = Some sampleIdle /\
  run (env:=sampleEnv) 1 [OpConnect 5 0%nat sampleRequest] sampleIdle =
    Done tt sampleConnecting [ConnectStarted sampleSocket] /\
  exists c' tr',
    destructor (env:=sampleEnv) 1 sampleConnecting = Done tt c' tr' /\
    socket_ c' = None /\
    flat_map callbackOf tr' = [] /\
    countEvents isConnectStarted ([ConnectStarted sampleSocket] ++ tr') =
    (countEvents isSocketDestroyed ([ConnectStarted sampleSocket] ++ tr') +
     countEvents isSessionCreated ([ConnectStarted sampleSocket] ++ tr'))%nat.
Proof.
  split; [lia|]. split; [reflexivity|]. split; [reflexivity|].
  exact (destructor_after_run_is_silent_and_complete (env:=sampleEnv) 1
           1%nat 0%nat sampleIdle [OpConnect 5 0%nat sampleRequest]
           sampleConnecting [ConnectStarted sampleSocket]
           (le_n 1) eq_refl eq_refl).
Defined.

Lemma run_fails_only_on_misuse_witness :
  (1 <= 1)%nat /\
  HTTPConnector_new (Some 1%nat) 0%nat = Some sampleIdle /\
  run (env:=sampleEnv) 1
      [OpConnect 5 0%nat sampleRequest; TransportError sampleError;
       TransportError sampleError] sampleIdle = Failed NoPendingConnect /\
  exists pre o rest c1 t1,
    [OpConnect 5 0%nat sampleRequest; TransportError sampleError;
     TransportError sampleError] = pre ++ o :: rest /\
    run (env:=sampleEnv) 1 pre sampleIdle = Done tt c1 t1 /\
    ((startsAttempt o = true /\ isBusy c1 = true /\
      NoPendingConnect = CheckFailed) \/
     (reportOf o <> [] /\ isBusy c1 = false /\
      NoPendingConnect = NoPendingConnect)).
Proof.
  split; [lia|]. split; [reflexivity|]. split; [reflexivity|].
  exact (run_fails_only_on_misuse (env:=sampleEnv) 1 1%nat 0%nat sampleIdle
           [OpConnect 5 0%nat sampleRequest; TransportError sampleError;
            TransportError sampleError]
           NoPendingConnect (le_n 1) eq_refl eq_refl).
Defined.

Lemma connect_while_busy_is_rejected_witness :
  HTTPConnector_new (Some 1%nat) 0%nat = Some sampleIdle /\
  exists c tr,
    run (env:=sampleEnv) 1
        ([] ++ OpConnect 5 0%nat sampleRequest ::
               [OpSetHTTPVersionOverride true]) sampleIdle = Done tt c tr /\
    exec (env:=sampleEnv) 1
         (OpConnectSSL 6 0%nat 3%nat None "example.org" sampleRequest) c =
      Failed CheckFailed.
Proof.
  split; [reflexivity|]. run_result Hrun c tr.
  exists c, tr. split; [reflexivity|].
  exact (proj1 (connect_while_busy_is_rejected (env:=sampleEnv) 1 1%nat 0%nat
                  sampleIdle [] [OpSetHTTPVersionOverride true] []
                  (OpConnect 5 0%nat sampleRequest)
                  (OpConnectSSL 6 0%nat 3%nat None "example.org" sampleRequest)
                  c tr eq_refl eq_refl eq_refl eq_refl Hrun)).
Defined.



Lemma unhinted_plaintext_attempt_yields_http1x_witness :
  @SPDYCodec_getVersion sampleEnv EmptyString = None /\
  ~ HTTP2Identifier (env:=sampleEnv) EmptyString /\
  HTTPConnector_new (Some 1%nat) 0%nat = Some sampleIdle /\
  exists c tr session,
    run (env:=sampleEnv) 1
        (([] ++ OpConnect 5 0%nat sampleRequest :: []) ++
         [TransportSuccess (sampleHandshake "h2") 9 10]) sampleIdle =
      Done tt c tr /\
    In (CallbackConnectSuccess 1%nat session) tr /\
    sessCodec session = HTTP1xCodec UPSTREAM false /\
    secure (sessTransportInfo session) = false.
Proof.
  assert (Hh2 : ~ HTTP2Identifier (env:=sampleEnv) EmptyString)
    by (apply sample_not_HTTP2Identifier; reflexivity).
  split; [reflexivity|]. split; [exact Hh2|]. split; [reflexivity|].
  run_result Hrun c tr.
  destruct (unhinted_plaintext_attempt_yields_http1x (env:=sampleEnv) 1
              1%nat 0%nat sampleIdle [] [] 5 0%nat sampleRequest
              (sampleHandshake "h2") 9 10 c tr
              eq_refl Hh2 eq_refl eq_refl eq_refl Hrun)
    as (session & Hin & Hcodec & Hsec).
  exists c, tr, session.
  split; [reflexivity|]. split; [exact Hin|]. split; assumption.
Defined.

